(** * Hitter split statistics: a model of [app/hitter/stats.py]

    The development embeds the fetch / aggregate / summarise / persist
    pipeline of [app/hitter/stats.py] as pure functions over an explicit
    [world] (the remote services and the wall clock) and proves the
    properties the specification states about it.

    Conventions of the embedding.
    - A Python [float] (and a numeric CSV cell, which pandas reads as
      [int64] or [float64]) is an exact rational [Qc]; rounding error of
      binary floating point, NaN and infinities are outside the model.
    - A rate field of a record is a Python string which is either the
      marker ['N/A'] or [str] of a number; it is the type [rate], and
      [float(s)] on such a string is [rate_float].
    - A [dict] whose iteration order matters is an association list in
      insertion order; one that is only looked up is a [gmap].
    - A caught exception makes the fetchers return [None]; it is [None]
      here as well.
    - The JSON documents on disk have the shape the program writes, and
      writing a file succeeds. *)

From Stdlib Require Import ZArith QArith Qcanon Qround Lqa Ascii String.
From stdpp Require Import base decidable option numbers list strings gmap sorting.

Local Open Scope Z_scope.

(** ** Numbers *)

Module Num.

(** [int(x)]: truncation toward zero. *)
Definition py_int (q : Qc) : Z := Z.quot (Qnum q) (Zpos (Qden q)).

(** Nearest integer, ties to the even neighbour. *)
Definition round_half_even (q : Q) : Z :=
  let f := Qfloor q in
  match Qcompare (q - inject_Z f) (1 # 2) with
  | Lt => f
  | Gt => f + 1
  | Eq => if Z.even f then f else f + 1
  end.

(** [round(x, 3)]. *)
Definition py_round3 (q : Qc) : Qc :=
  Q2Qc (inject_Z (round_half_even (q * inject_Z 1000)) / inject_Z 1000).

(** Decimal literal with three places: [milli 275] is [0.275]. *)
Definition milli (n : Z) : Qc := Q2Qc (n # 1000).

Definition Qc_sum (l : list Qc) : Qc := foldr Qcplus (Q2Qc 0) l.
Definition Z_sum (l : list Z) : Z := foldr Z.add 0 l.

End Num.
Import Num.

(** ** Records *)

(** A rate statistic as stored: ['N/A'] or the text of a number. *)
Inductive rate : Type :=
| NA
| Num (q : Qc).

Global Instance rate_eq_dec : EqDecision rate.
Proof. solve_decision. Defined.

(** [float(s)] for a stored rate that is not ['N/A']. *)
Definition rate_float (r : rate) : option Qc :=
  match r with NA => None | Num q => Some q end.

(** The [params] dictionary of [get_combined_split_data]. *)
Record split_params : Type := mk_params {
  pitch_type : option string;
  pitcher_throws : option string;
  home_road : option string
}.

Global Instance split_params_eq_dec : EqDecision split_params.
Proof. solve_decision. Defined.

(** The statistics dictionaries built in [stats.py]. Keys that only some
    of the constructors set are optional. *)
Record SplitRecord : Type := mk_record {
  split_name : option string;
  params : option split_params;
  avg : rate;
  slg : option rate;
  obp : option rate;
  ops : rate;
  homeRuns : Z;
  hits : option Z;
  singles : option Z;
  doubles : option Z;
  triples : option Z;
  strikeOuts : option Z;
  baseOnBalls : option Z;
  atBats : Z;
  plateAppearances : option Z;
  whiffs : option Z;
  swings : option Z;
  whiff_rate : option Qc;
  lastUpdated : string
}.

Global Instance SplitRecord_eq_dec : EqDecision SplitRecord.
Proof. solve_decision. Defined.

(** ** Ordered dictionaries

    A Python [dict] read in iteration order: pairs in insertion order,
    one pair per key. [d[k] = v] keeps the place of a key that is already
    there and appends a new key. *)

Definition dict (V : Type) : Type := list (string * V).

Section dict.
Context {V : Type}.

Fixpoint dict_get (k : string) (d : dict V) : option V :=
  match d with
  | [] => None
  | (k', v) :: d' => if decide (k = k') then Some v else dict_get k d'
  end.

Fixpoint dict_set (d : dict V) (k : string) (v : V) : dict V :=
  match d with
  | [] => [(k, v)]
  | (k', v') :: d' =>
    if decide (k = k') then (k, v) :: d' else (k', v') :: dict_set d' k v
  end.

Definition dict_keys (d : dict V) : list string := d.*1.

(** Store a list of pairs, one after the other. *)
Definition set_all (d : dict V) (l : list (string * V)) : dict V :=
  foldl (λ acc e, dict_set acc e.1 e.2) d l.

End dict.

(** ** The world: remote services and the clock *)

(** The query part of a Baseball Savant CSV URL that varies. *)
Record savant_query : Type := mk_query {
  q_player_id : Z;
  q_season : Z;
  q_hfPT : option string;
  q_pitcher_throws : option string;
  q_home_road : option string
}.

Global Instance savant_query_eq_dec : EqDecision savant_query.
Proof. solve_decision. Defined.

(** One CSV row after [pd.read_csv]: column name to cell. *)
Abbreviation row := (gmap string Qc).

(** [pd.read_csv(StringIO(response.text))]: it raises, or gives a frame. *)
Inductive csv : Type :=
| CsvUnreadable
| CsvFrame (rows : list row).

(** [requests.get(url)]: it raises, or gives a status and a body. *)
Inductive http_response : Type :=
| NoConnection
| Http (status_code : Z) (text : csv).

(** A directory entry of [statsapi.lookup_player]. *)
Record candidate : Type := mk_candidate {
  cand_id : Z;
  cand_fullName : string
}.

(** Places where [datetime.now()] is read; each is reached at most once in
    a run of the functions modelled here. *)
Inductive clock_site : Type :=
| AtFetch (q : savant_query)
| AtReport
| AtGroup (group_name hand : string)
| AtCareer
| AtAllPlayers.

Record world : Type := mk_world {
  lookup_player : string → list candidate;
  http_get : savant_query → http_response;
  now : clock_site → string
}.

(** ** Identity resolver *)

Definition get_player_id (w : world) (player_name : string) : option Z :=
  match lookup_player w player_name with
  | [] => None
  | c :: _ => Some (cand_id c)
  end.

(** How a caller reads the value [get_player_id] returns under the
    contract of the specification. *)
Inductive resolution : Type :=
| Resolved (player_id : Z)
| NotFound
| Ambiguous (candidates : list candidate).

Definition resolution_of (returned : option Z) : resolution :=
  match returned with
  | Some player_id => Resolved player_id
  | None => NotFound
  end.

(** ** Dimension fetchers *)

(** [data.empty] is false and [values[0]] is the first row. *)
Definition first_row (rows : list row) : option row :=
  match rows with
  | r :: _ => if decide (r = ∅) then None else Some r
  | [] => None
  end.

Definition required_columns : list string :=
  ["ba"; "slg"; "obp"; "hrs"; "singles"; "doubles"; "triples"; "so"; "bb";
   "abs"; "pa"]%string.

Definition missing_columns (r : row) : list string :=
  filter (λ col, r !! col = None) required_columns.

(** The query [get_baseball_savant_data] sends: [params] has one entry for
    the two known parameter names and none otherwise. *)
Definition basic_query (player_id season : Z)
    (parameter_name parameter_value : string) : savant_query :=
  if decide (parameter_name = "pitcher_throws"%string)
  then mk_query player_id season None (Some parameter_value) None
  else if decide (parameter_name = "home_road"%string)
       then mk_query player_id season None None (Some parameter_value)
       else mk_query player_id season None None None.

Definition get_baseball_savant_data (w : world) (player_id season : Z)
    (parameter_name parameter_value : string) : option SplitRecord :=
  (* [split_name] is bound only in the two branches of the source *)
  let split_name_ : option string :=
    if decide (parameter_name = "pitcher_throws"%string)
    then Some ("vs " +:+ parameter_value +:+ "HP")%string
    else if decide (parameter_name = "home_road"%string)
         then Some (if decide (parameter_value = "Home"%string)
                    then parameter_value else "Away"%string)
         else None in
  let q := basic_query player_id season parameter_name parameter_value in
  match http_get w q with
  | NoConnection => None
  | Http status body =>
    if decide (status = 200) then
      match body with
      | CsvUnreadable => None
      | CsvFrame rows =>
        match first_row rows with
        | None => None
        | Some data =>
          match missing_columns data with
          | _ :: _ => None
          | [] =>
            ba ← data !! "ba"%string;
            sl ← data !! "slg"%string;
            ob ← data !! "obp"%string;
            hr ← data !! "hrs"%string;
            x1 ← data !! "singles"%string;
            x2 ← data !! "doubles"%string;
            x3 ← data !! "triples"%string;
            so ← data !! "so"%string;
            bb ← data !! "bb"%string;
            ab ← data !! "abs"%string;
            pa ← data !! "pa"%string;
            (* the report line formats [split_name]; unbound, it raises
               and the handler returns None *)
            _ ← split_name_;
            Some {| split_name := None; params := None;
                    avg := Num ba; slg := Some (Num sl); obp := Some (Num ob);
                    ops := Num (ob + sl)%Qc;
                    homeRuns := py_int hr; hits := None;
                    singles := Some (py_int x1); doubles := Some (py_int x2);
                    triples := Some (py_int x3);
                    strikeOuts := Some (py_int so);
                    baseOnBalls := Some (py_int bb);
                    atBats := py_int ab;
                    plateAppearances := Some (py_int pa);
                    whiffs := None; swings := None; whiff_rate := None;
                    lastUpdated := now w (AtFetch q) |}
          end
        end
      end
    else None
  end.

Definition pitch_type_names : dict string :=
  [("FF", "Fastball (4-seam)"); ("SI", "Sinker (2-Seam)"); ("FC", "Cutter");
   ("CH", "Changeup"); ("FS", "Split-finger"); ("FO", "Forkball");
   ("SC", "Screwball"); ("CU", "Curveball"); ("KC", "Knuckle Curve");
   ("CS", "Slow Curve"); ("SL", "Slider"); ("ST", "Sweeper");
   ("SV", "Slurve"); ("KN", "Knuckleball"); ("EP", "Eephus");
   ("FA", "Other"); ("IN", "Intentional Ball"); ("PO", "Pitchout")]%string.

Fixpoint join (sep : string) (l : list string) : string :=
  match l with
  | [] => ""%string
  | [s] => s
  | s :: l' => s +:+ sep +:+ join sep l'
  end.

Definition describe_split (ps : split_params) : string :=
  join " "%string
    (from_option (λ v, [v]) [] (home_road ps) ++
     from_option (λ v, ["vs " +:+ v +:+ "HP"]%string) [] (pitcher_throws ps) ++
     from_option
       (λ v, ["on " +:+ default v (dict_get v pitch_type_names)]%string) []
       (pitch_type ps)).

Definition query_of (player_id season : Z) (ps : split_params) : savant_query :=
  mk_query player_id season (pitch_type ps) (pitcher_throws ps) (home_road ps).

Definition get_combined_split_data (w : world) (player_id season : Z)
    (ps : split_params) : option SplitRecord :=
  let q := query_of player_id season ps in
  match http_get w q with
  | NoConnection => None
  | Http status body =>
    if decide (status = 200) then
      match body with
      | CsvUnreadable => None
      | CsvFrame rows =>
        match first_row rows with
        | None => None
        | Some data =>
          match data !! "abs"%string with
          | Some ab =>
            if decide (0 < ab)%Qc then
              let count col := from_option py_int 0 (data !! col) in
              let text col := from_option Num NA (data !! col) in
              let extra :=
                match data !! "whiffs"%string, data !! "swings"%string with
                | Some wh, Some sw =>
                  (Some (py_int wh), Some (py_int sw),
                   if decide (0 < sw)%Qc then Some (py_round3 (wh / sw)%Qc)
                   else None)
                | _, _ => (None, None, None)
                end in
              Some {| split_name := Some (describe_split ps);
                      params := Some ps;
                      avg := text "ba"%string;
                      slg := Some (text "slg"%string);
                      obp := Some (text "obp"%string);
                      ops := match data !! "obp"%string, data !! "slg"%string with
                             | Some ob, Some sl => Num (ob + sl)%Qc
                             | _, _ => NA
                             end;
                      homeRuns := count "hrs"%string;
                      hits := Some (count "hits"%string);
                      singles := None; doubles := None; triples := None;
                      strikeOuts := Some (count "so"%string);
                      baseOnBalls := Some (count "bb"%string);
                      atBats := count "abs"%string;
                      plateAppearances := Some (count "pa"%string);
                      whiffs := extra.1.1; swings := extra.1.2;
                      whiff_rate := extra.2;
                      lastUpdated := now w (AtFetch q) |}
            else None
          | None => None
          end
        end
      end
    else None
  end.

(** ** Aggregator *)

(** The dimension combinations of the detailed report and the key each is
    stored under. *)
Inductive split_dim : Type :=
| ByPitch (pitch : string)
| ByHand (pitch hand : string)
| ByLoc (pitch hand location : string)
| ByGroup (group_name hand : string).

Global Instance split_dim_eq_dec : EqDecision split_dim.
Proof. solve_decision. Defined.

Definition split_key (d : split_dim) : string :=
  match d with
  | ByPitch pitch => "pitch_" +:+ pitch
  | ByHand pitch hand => "pitch_" +:+ pitch +:+ "_hand_" +:+ hand
  | ByLoc pitch hand location =>
    "pitch_" +:+ pitch +:+ "_hand_" +:+ hand +:+ "_loc_" +:+ location
  | ByGroup group_name hand => "group_" +:+ group_name +:+ "_hand_" +:+ hand
  end%string.

(** The [params] passed to the fetcher for a pitch dimension. *)
Definition dim_params (d : split_dim) : split_params :=
  match d with
  | ByPitch pitch => mk_params (Some pitch) None None
  | ByHand pitch hand => mk_params (Some pitch) (Some hand) None
  | ByLoc pitch hand location => mk_params (Some pitch) (Some hand) (Some location)
  | ByGroup _ _ => mk_params None None None
  end.

Definition pitch_types : list string :=
  ["FF"; "SI"; "FC"; "CH"; "FS"; "FO"; "SC";
   "CU"; "KC"; "CS"; "SL"; "ST"; "SV"; "KN"; "EP"]%string.

Definition pitcher_hands : list string := ["L"; "R"]%string.
Definition locations : list string := ["Home"; "Road"]%string.

Definition pitch_groups : dict (list string) :=
  [("Fastball", ["FF"; "SI"; "FC"]);
   ("Breaking", ["CU"; "KC"; "CS"; "SL"; "ST"; "SV"; "KN"]);
   ("Offspeed", ["CH"; "FS"; "FO"; "SC"])]%string.

(** [data and data.get('atBats', 0) >= n]. *)
Definition enough (n : Z) (data : option SplitRecord) : option SplitRecord :=
  match data with
  | Some v => if decide (n ≤ atBats v) then Some v else None
  | None => None
  end.

Record DetailedSplits : Type := mk_report {
  report_player_id : Z;
  report_season : Z;
  report_lastUpdated : string;
  splits : dict SplitRecord
}.

Section aggregate.
Variable w : world.
Variables player_id season : Z.

Definition fetch_dim (d : split_dim) : option SplitRecord :=
  get_combined_split_data w player_id season (dim_params d).

Definition loc_step (pitch hand : string) (acc : dict SplitRecord)
    (location : string) : dict SplitRecord :=
  match enough 5 (fetch_dim (ByLoc pitch hand location)) with
  | Some loc_data => dict_set acc (split_key (ByLoc pitch hand location)) loc_data
  | None => acc
  end.

Definition hand_step (pitch : string) (acc : dict SplitRecord)
    (hand : string) : dict SplitRecord :=
  match enough 5 (fetch_dim (ByHand pitch hand)) with
  | Some hand_data =>
    foldl (loc_step pitch hand)
          (dict_set acc (split_key (ByHand pitch hand)) hand_data) locations
  | None => acc
  end.

Definition pitch_step (acc : dict SplitRecord) (pitch : string)
    : dict SplitRecord :=
  match enough 5 (fetch_dim (ByPitch pitch)) with
  | Some pitch_data =>
    foldl (hand_step pitch)
          (dict_set acc (split_key (ByPitch pitch)) pitch_data) pitcher_hands
  | None => acc
  end.

(** The first loop of [get_detailed_pitch_splits]. *)
Definition pitch_phase : dict SplitRecord := foldl pitch_step [] pitch_types.

(** The same loop with the list of dimensions whose fetch it issues: every
    call of [get_combined_split_data] is logged where the source makes it. *)
Definition loc_step_traced (pitch hand : string)
    (st : dict SplitRecord * list split_dim) (location : string)
    : dict SplitRecord * list split_dim :=
  let issued := st.2 ++ [ByLoc pitch hand location] in
  match enough 5 (fetch_dim (ByLoc pitch hand location)) with
  | Some loc_data =>
    (dict_set st.1 (split_key (ByLoc pitch hand location)) loc_data, issued)
  | None => (st.1, issued)
  end.

Definition hand_step_traced (pitch : string)
    (st : dict SplitRecord * list split_dim) (hand : string)
    : dict SplitRecord * list split_dim :=
  let issued := st.2 ++ [ByHand pitch hand] in
  match enough 5 (fetch_dim (ByHand pitch hand)) with
  | Some hand_data =>
    foldl (loc_step_traced pitch hand)
          (dict_set st.1 (split_key (ByHand pitch hand)) hand_data, issued)
          locations
  | None => (st.1, issued)
  end.

Definition pitch_step_traced (st : dict SplitRecord * list split_dim)
    (pitch : string) : dict SplitRecord * list split_dim :=
  let issued := st.2 ++ [ByPitch pitch] in
  match enough 5 (fetch_dim (ByPitch pitch)) with
  | Some pitch_data =>
    foldl (hand_step_traced pitch)
          (dict_set st.1 (split_key (ByPitch pitch)) pitch_data, issued)
          pitcher_hands
  | None => (st.1, issued)
  end.

Definition pitch_phase_traced : dict SplitRecord * list split_dim :=
  foldl pitch_step_traced ([], []) pitch_types.

(** The fetches the first loop issues, in order. *)
Definition issued_fetches : list split_dim := pitch_phase_traced.2.

(** The constituents of a group and hand found in the report so far. *)
Definition group_hand_data (acc : dict SplitRecord)
    (group_pitches : list string) (hand : string) : list SplitRecord :=
  omap (λ pitch, dict_get (split_key (ByHand pitch hand)) acc) group_pitches.

(** The rollup record. Python's [sum] adds from the left starting at 0;
    the numbers being exact here, the order of the additions is
    immaterial. *)
Definition group_rollup (group_name hand : string)
    (hand_data : list SplitRecord) : option SplitRecord :=
  match hand_data with
  | [] => None
  | _ :: _ =>
    let avg_sum := Qc_sum (omap (λ d, rate_float (avg d)) hand_data) in
    let ops_sum := Qc_sum (omap (λ d, rate_float (ops d)) hand_data) in
    let ab_sum := Z_sum (atBats <$> hand_data) in
    let hr_sum := Z_sum (homeRuns <$> hand_data) in
    let n := Qc_of_Z (Z.of_nat (length hand_data)) in
    if decide ((0 < length hand_data)%nat ∧ 0 < ab_sum) then
      Some {| split_name :=
                Some (group_name +:+ " pitches vs " +:+ hand +:+ "HP")%string;
              params := None;
              avg := Num (py_round3 (avg_sum / n)%Qc);
              slg := None; obp := None;
              ops := Num (py_round3 (ops_sum / n)%Qc);
              homeRuns := hr_sum; hits := None;
              singles := None; doubles := None; triples := None;
              strikeOuts := None; baseOnBalls := None;
              atBats := ab_sum; plateAppearances := None;
              whiffs := None; swings := None; whiff_rate := None;
              lastUpdated := now w (AtGroup group_name hand) |}
    else None
  end.

Definition group_hand_step (group_name : string) (group_pitches : list string)
    (acc : dict SplitRecord) (hand : string) : dict SplitRecord :=
  match group_rollup group_name hand (group_hand_data acc group_pitches hand) with
  | Some rollup => dict_set acc (split_key (ByGroup group_name hand)) rollup
  | None => acc
  end.

Definition group_step (acc : dict SplitRecord) (g : string * list string)
    : dict SplitRecord :=
  foldl (group_hand_step g.1 g.2) acc pitcher_hands.

Definition get_detailed_pitch_splits : DetailedSplits :=
  {| report_player_id := player_id;
     report_season := season;
     report_lastUpdated := now w AtReport;
     splits := foldl group_step pitch_phase pitch_groups |}.

End aggregate.

(** ** Summarizer *)

(** One line of [summary["notable_splits"]]. *)
Record NotableSplit : Type := mk_notable {
  nt_name : string;
  nt_avg : rate;
  nt_ops : rate;
  nt_hr : Z;
  nt_ab : Z
}.

(** One line of [summary["basic_splits"]]. *)
Record BasicLine : Type := mk_line {
  bl_avg : rate;
  bl_ops : rate;
  bl_hr : Z;
  bl_ab : Z
}.

(** The summary dictionary. [pitch_type_summary], built from the output of
    [get_pitch_type_data], is kept apart as the function of that name
    below; the two summaries that stay empty are left out. *)
Record Summary : Type := mk_summary {
  summary_player : string * Z;
  summary_season : Z;
  summary_basic_splits : dict BasicLine;
  notable_splits : list NotableSplit
}.

Record AllData : Type := mk_all_data {
  basic_splits : option (dict SplitRecord);
  detailed_splits : option DetailedSplits;
  summary : option Summary
}.

(** [key.startswith(p)]. *)
Definition starts_with (p key : string) : bool := String.prefix p key.

Definition notable_entry (entry : string * SplitRecord) : NotableSplit :=
  {| nt_name := default entry.1 (split_name entry.2);
     nt_avg := avg entry.2;
     nt_ops := ops entry.2;
     nt_hr := homeRuns entry.2;
     nt_ab := atBats entry.2 |}.

(** The test guarding [notable_splits.append]. *)
Definition is_notable (entry : string * SplitRecord) : Prop :=
  (10 ≤ atBats entry.2 ∧ avg entry.2 ≠ NA) ∧ starts_with "group_" entry.1 = false.

Global Instance is_notable_dec entry : Decision (is_notable entry).
Proof. unfold is_notable. apply _. Defined.

(** The sort key [float(x["avg"]) if x["avg"] != "N/A" else 0]. *)
Definition notable_sort_key (x : NotableSplit) : Qc :=
  default (Q2Qc 0) (rate_float (nt_avg x)).

(** [list.sort(key=..., reverse=True)]: descending and stable. *)
Section sort.
Context {A : Type} (key : A → Qc).

Fixpoint insert_desc (x : A) (l : list A) : list A :=
  match l with
  | [] => [x]
  | y :: l' =>
    if decide (key y ≤ key x)%Qc then x :: y :: l' else y :: insert_desc x l'
  end.

Definition sort_desc (l : list A) : list A := foldr insert_desc [] l.


End sort.

Definition basic_line (data : SplitRecord) : BasicLine :=
  {| bl_avg := avg data; bl_ops := ops data;
     bl_hr := homeRuns data; bl_ab := atBats data |}.

Definition summarize_basic (basic : dict SplitRecord) : dict BasicLine :=
  foldl (λ acc key,
           match dict_get key basic with
           | Some data => dict_set acc key (basic_line data)
           | None => acc
           end)
        [] ["overall"; "vs LHP"; "vs RHP"; "Home"; "Away"]%string.

Definition generate_performance_summary (player_name : string)
    (player_id season : Z) (all_data : AllData) : Summary :=
  {| summary_player := (player_name, player_id);
     summary_season := season;
     summary_basic_splits :=
       from_option summarize_basic [] (basic_splits all_data);
     notable_splits :=
       match detailed_splits all_data with
       | Some report =>
         take 5 (sort_desc notable_sort_key
                   (notable_entry <$> filter is_notable (splits report)))
       | None => []
       end |}.

(** ** Persistence *)

(** A JSON file that exists: its content parses, or [json.load] raises. *)
Inductive stored (A : Type) : Type :=
| Garbled
| Json (doc : A).
Global Arguments Garbled {A}.
Global Arguments Json {A} doc.

(** [<player>_career.json]; seasons are keyed by [str(season)]. *)
Record CareerDoc : Type := mk_career {
  career_player : option (string * Z);
  career_seasons : option (gmap Z (dict SplitRecord));
  career_lastUpdated : option string
}.

(** One player of [all_players_career.json]. *)
Record PlayerDoc : Type := mk_player_doc {
  doc_player : string * Z;
  doc_seasons : gmap Z Summary;
  doc_lastUpdated : option string
}.

(** The files the career update reads and writes; a name with no entry
    does not exist on disk. *)
Record disk : Type := mk_disk {
  career_files : gmap string (stored CareerDoc);
  all_players_file : option (stored (gmap string PlayerDoc))
}.

(** [name.replace(' ', '_')]. *)
Fixpoint replace_spaces (s : string) : string :=
  match s with
  | EmptyString => EmptyString
  | String c s' =>
    String (if decide (c = " "%char) then "_"%char else c) (replace_spaces s')
  end.

Definition career_filename (player_name : string) : string :=
  ("splits/" +:+ replace_spaces player_name +:+ "_career.json")%string.

(** [career_data] after the load and the two initialisations. *)
Definition load_career (player_name : string) (player_id : Z)
    (f : option (stored CareerDoc)) : CareerDoc :=
  let career_data :=
    match f with
    | Some (Json doc) => doc
    | Some Garbled | None => mk_career None None None
    end in
  {| career_player :=
       Some (default (player_name, player_id) (career_player career_data));
     career_seasons := Some (default ∅ (career_seasons career_data));
     career_lastUpdated := career_lastUpdated career_data |}.

Definition update_career_files (w : world) (player_name : string)
    (player_id season : Z) (all_data : AllData) (fs : disk) : disk :=
  let careers :=
    match basic_splits all_data with
    | Some basic =>
      let career_data :=
        load_career player_name player_id
                    (career_files fs !! career_filename player_name) in
      <[career_filename player_name :=
          Json {| career_player := career_player career_data;
                  career_seasons :=
                    Some (<[season := basic]>
                            (default ∅ (career_seasons career_data)));
                  career_lastUpdated := Some (now w AtCareer) |}]>
        (career_files fs)
    | None => career_files fs
    end in
  let all_players_data : gmap string PlayerDoc :=
    match all_players_file fs with
    | Some (Json doc) => doc
    | Some Garbled | None => ∅
    end in
  let entry :=
    default (mk_player_doc (player_name, player_id) ∅ None)
            (all_players_data !! player_name) in
  let entry' :=
    match summary all_data with
    | Some sm =>
      {| doc_player := doc_player entry;
         doc_seasons := <[season := sm]> (doc_seasons entry);
         doc_lastUpdated := Some (now w AtAllPlayers) |}
    | None => entry
    end in
  {| career_files := careers;
     all_players_file := Some (Json (<[player_name := entry']> all_players_data)) |}.

(** ** The pipeline *)

Definition collect_basic_splits (w : world) (player_id season : Z)
    : dict SplitRecord :=
  let keep (key : string) (stats : option SplitRecord) (acc : dict SplitRecord) :=
    match stats with Some v => dict_set acc key v | None => acc end in
  let acc0 :=
    keep "overall"%string
         (get_baseball_savant_data w player_id season "overall" "total") [] in
  let acc1 :=
    foldl (λ acc hand,
             keep ("vs " +:+ hand +:+ "HP")%string
                  (get_baseball_savant_data w player_id season
                                            "pitcher_throws" hand) acc)
          acc0 ["R"; "L"]%string in
  foldl (λ acc (location : string * string),
           keep location.2
                (get_baseball_savant_data w player_id season
                                          "home_road" location.1) acc)
        acc1 [("Home", "Home"); ("Road", "Away")]%string.

(** [get_complete_player_data], with the disk it leaves behind, for a run
    whose report prints. The pitch type stage ([get_pitch_type_data]), the
    printed report and the four per-category files are left out here: the
    career files do not depend on them.
    [get_complete_player_data_or_raise] adds the stage and the report. *)
Definition get_complete_player_data (w : world) (player_name : string)
    (season : Z) (fs : disk) : option AllData * disk :=
  match get_player_id w player_name with
  | None => (None, fs)
  | Some player_id =>
    if decide (player_id = 0) then (None, fs)
    else
      let basic := collect_basic_splits w player_id season in
      let detailed := get_detailed_pitch_splits w player_id season in
      let all_data := mk_all_data (Some basic) (Some detailed) None in
      let sm := generate_performance_summary player_name player_id season all_data in
      let all_data := mk_all_data (Some basic) (Some detailed) (Some sm) in
      (Some all_data,
       update_career_files w player_name player_id season all_data fs)
  end.

(** The entry a career file holds for a season. *)
Definition season_entry (fs : disk) (player_name : string) (season : Z)
    : option (dict SplitRecord) :=
  match career_files fs !! career_filename player_name with
  | Some (Json doc) => career_seasons doc ≫= (.!! season)
  | _ => None
  end.

(** ** Closed forms used in the proofs *)

(** The pitch dimensions in the order the first loop visits them. *)
Definition dims_of_hand (pitch hand : string) : list split_dim :=
  ByHand pitch hand :: (ByLoc pitch hand <$> locations).

Definition dims_of_pitch (pitch : string) : list split_dim :=
  ByPitch pitch :: (pitcher_hands ≫= dims_of_hand pitch).

Definition all_pitch_dims : list split_dim := pitch_types ≫= dims_of_pitch.

Definition all_group_dims : list (string * list string * string) :=
  pitch_groups ≫= λ g, (λ hand, (g, hand)) <$> pitcher_hands.


Section closed_forms.
Variable w : world.
Variables player_id season : Z.

(** What the first loop stores for a pitch dimension. *)
Definition stored_dim (d : split_dim) : option SplitRecord :=
  match d with
  | ByPitch p => enough 5 (fetch_dim w player_id season (ByPitch p))
  | ByHand p h =>
    _ ← enough 5 (fetch_dim w player_id season (ByPitch p));
    enough 5 (fetch_dim w player_id season (ByHand p h))
  | ByLoc p h l =>
    _ ← enough 5 (fetch_dim w player_id season (ByPitch p));
    _ ← enough 5 (fetch_dim w player_id season (ByHand p h));
    enough 5 (fetch_dim w player_id season (ByLoc p h l))
  | ByGroup _ _ => None
  end.

Definition stored_entry (d : split_dim) : option (string * SplitRecord) :=
  (λ v, (split_key d, v)) <$> stored_dim d.

(** The fetches one turn of the outer loop issues. *)
Definition issued_for_hand (pitch hand : string) : list split_dim :=
  ByHand pitch hand ::
  match enough 5 (fetch_dim w player_id season (ByHand pitch hand)) with
  | Some _ => ByLoc pitch hand <$> locations
  | None => []
  end.

Definition issued_for_pitch (pitch : string) : list split_dim :=
  ByPitch pitch ::
  match enough 5 (fetch_dim w player_id season (ByPitch pitch)) with
  | Some _ => pitcher_hands ≫= issued_for_hand pitch
  | None => []
  end.

(** What the second loop stores for a group and hand, from the result
    of the first loop. *)
Definition group_entry (acc : dict SplitRecord)
    (gh : string * list string * string) : option (string * SplitRecord) :=
  (λ v, (split_key (ByGroup gh.1.1 gh.2), v)) <$>
    group_rollup w gh.1.1 gh.2 (group_hand_data acc gh.1.2 gh.2).

End closed_forms.

(** [same_hands first acc]: [acc] answers the lookups of the second loop
    as the result [first] of the first loop does. *)
Definition same_hands (first acc : dict SplitRecord) : Prop :=
  ∀ pitch hand,
    dict_get (split_key (ByHand pitch hand)) acc =
    dict_get (split_key (ByHand pitch hand)) first.

Definition group_key (gh : string * list string * string) : string :=
  split_key (ByGroup gh.1.1 gh.2).

(** Every key the two loops can store, in the order they are reached. *)
Definition all_keys : list string :=
  (split_key <$> all_pitch_dims) ++ (group_key <$> all_group_dims).

(** The averages of the constituents that are numbers, and a mean. *)
Definition numeric_avgs (hand_data : list SplitRecord) : list Qc :=
  omap (λ d, rate_float (avg d)) hand_data.



(** The world whose exports carry one more column, [col], holding [x] in
    every row. *)
Definition with_column (col : string) (x : Qc) (w : world) : world :=
  {| lookup_player := lookup_player w;
     http_get := λ q,
       match http_get w q with
       | Http status (CsvFrame rows) =>
         Http status (CsvFrame ((λ r : row, <[col := x]> r) <$> rows))
       | other => other
       end;
     now := now w |}.

(** ** Sample worlds *)

Module Samples.

Definition stat_row (ba obp slg : Qc) (ab hr : Z) : row :=
  list_to_map [("ba", ba); ("obp", obp); ("slg", slg);
               ("abs", Qc_of_Z ab); ("hrs", Qc_of_Z hr)]%string.

(** A row with every column [get_baseball_savant_data] requires. *)
Definition full_row (ba obp slg : Qc) (ab hr : Z) : row :=
  list_to_map [("ba", ba); ("obp", obp); ("slg", slg);
               ("abs", Qc_of_Z ab); ("hrs", Qc_of_Z hr);
               ("singles", Qc_of_Z 3); ("doubles", Qc_of_Z 1);
               ("triples", Qc_of_Z 0); ("so", Qc_of_Z 4);
               ("bb", Qc_of_Z 2); ("pa", Qc_of_Z (ab + 2))]%string.

(** Answers 200 with the row listed for the query and 404 otherwise. *)
Fixpoint table_lookup (t : list (split_params * row)) (ps : split_params)
    : http_response :=
  match t with
  | [] => Http 404 CsvUnreadable
  | (ps', r) :: t' =>
    if decide (ps = ps') then Http 200 (CsvFrame [r]) else table_lookup t' ps
  end.

Definition table_world (t : list (split_params * row)) (stamp : string)
    : world :=
  {| lookup_player := λ _, [mk_candidate 660271 "Shohei Ohtani"];
     http_get := λ q, table_lookup t (mk_params (q_hfPT q) (q_pitcher_throws q)
                                                (q_home_road q));
     now := λ _, stamp |}.

Definition on (pitch : string) : split_params :=
  mk_params (Some pitch) None None.
Definition on_vs (pitch hand : string) : split_params :=
  mk_params (Some pitch) (Some hand) None.

Definition noon : string := "2024-07-01 12:00:00".
Definition later : string := "2024-07-01 12:05:00".

(** Curveball and slider against left-handers: .250 in 20 at-bats and
    .300 in 30. *)
Definition breaking_vs_left : world :=
  table_world
    [(on "CU", stat_row (milli 280) (milli 300) (milli 400) 50 2);
     (on_vs "CU" "L", stat_row (milli 250) (milli 300) (milli 400) 20 1);
     (on "SL", stat_row (milli 290) (milli 300) (milli 400) 60 2);
     (on_vs "SL" "L", stat_row (milli 300) (milli 350) (milli 450) 30 1)]
    noon.

(** Three fastballs against left-handers: .250, .300 and .301. *)
Definition three_fastballs : world :=
  table_world
    [(on "FF", stat_row (milli 280) (milli 300) (milli 400) 50 2);
     (on_vs "FF" "L", stat_row (milli 250) (milli 300) (milli 400) 20 1);
     (on "SI", stat_row (milli 290) (milli 300) (milli 400) 60 2);
     (on_vs "SI" "L", stat_row (milli 300) (milli 350) (milli 450) 30 1);
     (on "FC", stat_row (milli 290) (milli 300) (milli 400) 40 0);
     (on_vs "FC" "L", stat_row (milli 301) (milli 350) (milli 450) 10 0)]
    noon.

(** A four-seam sample of six at-bats, all against left-handers. *)
Definition small_sample : world :=
  table_world
    [(on "FF", stat_row (milli 333) (milli 333) (milli 500) 6 0);
     (on_vs "FF" "L", stat_row (milli 333) (milli 333) (milli 500) 6 0)]
    noon.




(** Basic splits against right-handers, read at two different times. *)
Definition basic_table : list (split_params * row) :=
  [(mk_params None (Some "R") None,
    full_row (milli 270) (milli 340) (milli 450) 100 5)]%string.
Definition first_run : world := table_world basic_table noon.
Definition second_run : world := table_world basic_table later.



(** The season totals are served, under no filter. *)
Definition totals_served : world :=
  table_world
    [(mk_params None None None,
      full_row (milli 280) (milli 350) (milli 480) 500 30)]
    noon.

Definition empty_disk : disk := mk_disk ∅ None.

(** A directory with two players of the same name. *)
Definition two_will_smiths : world :=
  {| lookup_player := λ _, [mk_candidate 669257 "Will Smith";
                            mk_candidate 571105 "Will Smith"];
     http_get := λ _, NoConnection;
     now := λ _, noon |}.

End Samples.

(** ** The pitch type stage and what the report prints about it *)

Definition pitch_groups_all : dict (list string) :=
  [("Fastball", ["FF"; "SI"; "FC"]);
   ("Breaking", ["CU"; "KC"; "CS"; "SL"; "ST"; "SV"; "KN"]);
   ("Offspeed", ["CH"; "FS"; "FO"; "SC"]);
   ("Other", ["EP"; "FA"; "IN"; "PO"])]%string.

(** The fetch [get_combined_split_data(player_id, season,
    {'pitch_type': code})]. *)
Definition fetch_pitch_type (w : world) (player_id season : Z) (code : string)
    : option SplitRecord :=
  get_combined_split_data w player_id season (mk_params (Some code) None None).

Definition pitch_type_step (w : world) (player_id season : Z)
    (acc : dict SplitRecord) (entry : string * string) : dict SplitRecord :=
  match enough 5 (fetch_pitch_type w player_id season entry.1) with
  | Some data => dict_set acc entry.1 data
  | None => acc
  end.

(** The member codes joined for the URL; the source builds the parameter
    from them and then queries with the name of the group. *)
Definition pitch_code_list (group_pitches : list string) : string :=
  join "%7C" (filter (λ p, is_Some (dict_get p pitch_type_names)) group_pitches).

Definition pitch_group_step (w : world) (player_id season : Z)
    (acc : dict SplitRecord) (g : string * list string) : dict SplitRecord :=
  if decide (pitch_code_list g.2 = ""%string) then acc
  else match enough 10 (fetch_pitch_type w player_id season g.1) with
       | Some group_data => dict_set acc ("GROUP_" +:+ g.1)%string group_data
       | None => acc
       end.

Definition get_pitch_type_data (w : world) (player_id season : Z)
    : dict SplitRecord :=
  foldl (pitch_group_step w player_id season)
        (foldl (pitch_type_step w player_id season) [] pitch_type_names)
        pitch_groups_all.

(** What the group loop stores for a group. *)
Definition group_fetch (w : world) (player_id season : Z)
    (g : string * list string) : option SplitRecord :=
  if decide (pitch_code_list g.2 = ""%string) then None
  else enough 10 (fetch_pitch_type w player_id season g.1).

(** The keys [get_pitch_type_data] can store, in order. *)
Definition pitch_data_keys : list string :=
  pitch_type_names.*1 ++ ((λ g, "GROUP_" +:+ g.1)%string <$> pitch_groups_all).

(** One line of [summary["pitch_type_summary"]]. *)
Record PitchLine : Type := mk_pitch_line {
  pl_name : string;
  pl_avg : rate;
  pl_ops : rate;
  pl_hr : Z;
  pl_ab : Z
}.

(** [s.replace(old, "")] for a non-empty [old]: every occurrence of [old],
    found from the left and not overlapping, is dropped. [skip] counts the
    characters of a found occurrence still to drop. *)
Fixpoint str_remove_from (old : string) (skip : nat) (s : string) : string :=
  match s with
  | EmptyString => EmptyString
  | String c s' =>
    match skip with
    | S k => str_remove_from old k s'
    | O =>
      if String.prefix old s
      then str_remove_from old (String.length old - 1) s'
      else String c (str_remove_from old 0 s')
    end
  end.

Definition str_remove (old s : string) : string := str_remove_from old 0 s.

Definition pitch_line (name : string) (data : SplitRecord) : PitchLine :=
  {| pl_name := default name (split_name data);
     pl_avg := avg data; pl_ops := ops data;
     pl_hr := homeRuns data; pl_ab := atBats data |}.

(** The two loops of [generate_performance_summary] over [pitch_data]. *)
Definition pitch_type_summary (pitch_data : dict SplitRecord) : dict PitchLine :=
  let by_type :=
    foldl (λ acc (item : string * SplitRecord),
             if decide (starts_with "GROUP_" item.1 = false ∧ 10 ≤ atBats item.2)
             then dict_set acc item.1 (pitch_line item.1 item.2)
             else acc)
          [] pitch_data in
  foldl (λ acc (item : string * SplitRecord),
           if decide (starts_with "GROUP_" item.1 = true ∧ 10 ≤ atBats item.2)
           then dict_set acc (str_remove "GROUP_" item.1)
                         (pitch_line (str_remove "GROUP_" item.1) item.2)
           else acc)
        by_type pitch_data.

(** What the first and the second loop store for an item of
    [pitch_data]. *)
Definition type_line (item : string * SplitRecord) : option (string * PitchLine) :=
  if decide (starts_with "GROUP_" item.1 = false ∧ 10 ≤ atBats item.2)
  then Some (item.1, pitch_line item.1 item.2)
  else None.

Definition group_line (item : string * SplitRecord) : option (string * PitchLine) :=
  if decide (starts_with "GROUP_" item.1 = true ∧ 10 ≤ atBats item.2)
  then Some (str_remove "GROUP_" item.1,
             pitch_line (str_remove "GROUP_" item.1) item.2)
  else None.

(** [max(items, key=...)] and [min(items, key=...)] on a non-empty
    sequence: the first item is kept until a strictly greater (smaller)
    one comes. *)
Fixpoint py_max_from {A} (key : A → Qc) (best : A) (l : list A) : A :=
  match l with
  | [] => best
  | x :: l' => py_max_from key (if decide (key best < key x)%Qc then x else best) l'
  end.

Fixpoint py_min_from {A} (key : A → Qc) (best : A) (l : list A) : A :=
  match l with
  | [] => best
  | x :: l' => py_min_from key (if decide (key x < key best)%Qc then x else best) l'
  end.

Definition group_lines : list string := ["Fastball"; "Breaking"; "Offspeed"]%string.

(** The test guarding [valid_pitches[pitch] = ...]. *)
Definition rated_pitch (item : string * PitchLine) : Prop :=
  (item.1 ∉ group_lines) ∧ 20 ≤ pl_ab item.2.

Global Instance rated_pitch_dec item : Decision (rated_pitch item).
Proof. unfold rated_pitch. apply _. Defined.

(** [valid_pitches] of [print_performance_summary]; [float] of an ['N/A']
    average raises, which is [None]. *)
Definition valid_pitches (lines : dict PitchLine) : option (dict Qc) :=
  foldl (λ (acc : option (dict Qc)) (item : string * PitchLine),
           valid ← acc;
           if decide (rated_pitch item)
           then (x ← rate_float (pl_avg item.2); Some (dict_set valid item.1 x))
           else Some valid)
        (Some []) lines.

(** The best and the worst pitch type the report names, when it names
    them; the outer [None] is the error of [valid_pitches]. *)
Definition best_and_worst (lines : dict PitchLine)
    : option (option ((string * Qc) * (string * Qc))) :=
  valid ← valid_pitches lines;
  Some match valid with
       | [] => None
       | x :: l => Some (py_max_from snd x l, py_min_from snd x l)
       end.

(** What [valid_pitches] holds for a line that passes the test and has an
    average. *)
Definition rated_entry (item : string * PitchLine) : option (string * Qc) :=
  if decide (rated_pitch item)
  then (λ x, (item.1, x)) <$> rate_float (pl_avg item.2)
  else None.




(** * Properties *)

(** ** Ordered dictionaries *)

Section dict_facts.
Context {V : Type}.
Implicit Types (d : dict V) (k : string) (v : V).

Lemma dict_get_set d k k' v :
  dict_get k (dict_set d k' v) =
  if decide (k = k') then Some v else dict_get k d.
Proof.
  induction d as [|[k0 v0] d IH]; simpl.
  - by repeat case_decide.
  - destruct (decide (k' = k0)) as [->|Hne]; simpl.
    + by repeat case_decide.
    + rewrite IH. repeat case_decide; congruence.
Qed.

Lemma dict_get_Some_elem d k v : dict_get k d = Some v → (k, v) ∈ d.
Proof.
  induction d as [|[k0 v0] d IH]; simpl; [done|].
  case_decide as Hk.
  - intros [= ->]. subst. apply list_elem_of_here.
  - intros ?. apply list_elem_of_further. auto.
Qed.

Lemma dict_get_None_keys d k : dict_get k d = None ↔ k ∉ dict_keys d.
Proof.
  unfold dict_keys. induction d as [|[k0 v0] d IH]; simpl.
  - split; [intros _; apply not_elem_of_nil | done].
  - rewrite not_elem_of_cons. case_decide; [|rewrite IH]; intuition congruence.
Qed.

Lemma dict_get_app d1 d2 k :
  dict_get k (d1 ++ d2) =
  match dict_get k d1 with Some v => Some v | None => dict_get k d2 end.
Proof.
  induction d1 as [|[k0 v0] d1 IH]; simpl; [done|]. by case_decide.
Qed.

Lemma dict_set_new d k v : k ∉ dict_keys d → dict_set d k v = d ++ [(k, v)].
Proof.
  unfold dict_keys. induction d as [|[k0 v0] d IH]; simpl; [done|].
  rewrite not_elem_of_cons. intros [Hne Hnot].
  rewrite decide_False by done. by rewrite IH.
Qed.

(** Storing a list of pairs with fresh, pairwise distinct keys appends
    them in order. *)
Lemma foldl_dict_set_fresh (l : list (string * V)) d :
  NoDup (dict_keys (d ++ l)) →
  set_all d l = d ++ l.
Proof.
  unfold set_all. revert d. induction l as [|[k v] l IH]; intros d Hnd; simpl.
  - by rewrite app_nil_r.
  - assert (k ∉ dict_keys d) as Hk.
    { unfold dict_keys in *. rewrite fmap_app in Hnd.
      apply NoDup_app in Hnd as (_ & Hdis & _).
      intros Hin. apply (Hdis _ Hin). simpl. apply list_elem_of_here. }
    rewrite dict_set_new by done. rewrite IH.
    + by rewrite <-app_assoc.
    + by rewrite <-app_assoc.
Qed.

End dict_facts.

(** ** Sorting *)

Section sort_facts.
Context {A : Type} (key : A → Qc).






End sort_facts.

(** ** Summarizer *)


(** ** Identity resolver *)

(** C6 fails as stated: for a name with two directory entries the resolver
    returns the identifier of the first, not the candidates. *)
Lemma ambiguous_name_resolves_to_first :
  length (lookup_player Samples.two_will_smiths "Will Smith") = 2%nat ∧
  resolution_of (get_player_id Samples.two_will_smiths "Will Smith")
    = Resolved 669257 ∧
  resolution_of (get_player_id Samples.two_will_smiths "Will Smith")
    ≠ Ambiguous (lookup_player Samples.two_will_smiths "Will Smith").
Proof. split; [reflexivity|]. split; [reflexivity | discriminate]. Qed.

(** C6, amended: the resolver returns the identifier of the first
    directory entry, whatever the number of entries, and nothing when the
    directory has no entry for the name. *)
Theorem get_player_id_first_match (w : world) (player_name : string) :
  get_player_id w player_name = cand_id <$> head (lookup_player w player_name) ∧
  (lookup_player w player_name = [] ↔
   resolution_of (get_player_id w player_name) = NotFound).
Proof.
  unfold get_player_id.
  destruct (lookup_player w player_name) as [|c rest]; simpl; [done|].
  split; [done|]. split; discriminate.
Qed.

(** ** Aggregator: the report in closed form *)

Lemma all_keys_NoDup : NoDup all_keys.
Proof. refine (bool_decide_unpack _ _). vm_compute. exact I. Qed.

Lemma omap_bind {A B C} (f : B → option C) (g : A → list B) (l : list A) :
  omap f (l ≫= g) = l ≫= (λ x, omap f (g x)).
Proof.
  induction l as [|x l IH]; [done|].
  by rewrite !bind_cons, omap_app, IH.
Qed.

Lemma set_all_app {V} (d : dict V) l1 l2 :
  set_all d (l1 ++ l2) = set_all (set_all d l1) l2.
Proof. apply foldl_app. Qed.

Lemma omap_keys_sublist {A V} (key : A → string) (f : A → option V) (l : list A) :
  dict_keys (omap (λ x, (λ v, (key x, v)) <$> f x) l) `sublist_of` key <$> l.
Proof.
  unfold dict_keys. induction l as [|x l IH]; simpl; [done|].
  destruct (f x); simpl; [by apply sublist_skip | by apply sublist_cons].
Qed.

(** A key that stands once in [l] is looked up to what is stored for it. *)
Lemma dict_get_omap {A V} (key : A → string) (f : A → option V) (l : list A) x :
  NoDup (key <$> l) → x ∈ l →
  dict_get (key x) (omap (λ x, (λ v, (key x, v)) <$> f x) l) = f x.
Proof.
  induction l as [|y l IH]; simpl; intros Hnd Hin.
  - by apply elem_of_nil in Hin.
  - apply NoDup_cons in Hnd as [Hy Hnd].
    apply elem_of_cons in Hin as [->|Hin].
    + destruct (f y) as [v|] eqn:Hf; simpl.
      * by rewrite decide_True.
      * apply dict_get_None_keys. intros Hk. apply Hy.
        eapply elem_of_sublist; [exact Hk | apply omap_keys_sublist].
    + assert (key x ≠ key y) as Hne.
      { intros Heq. apply Hy. rewrite <-Heq.
        apply list_elem_of_fmap. eauto. }
      destruct (f y); simpl; [rewrite decide_False by done|]; by apply IH.
Qed.

Lemma dict_get_omap_None {A V} (key : A → string) (f : A → option V) (l : list A) k :
  k ∉ key <$> l →
  dict_get k (omap (λ x, (λ v, (key x, v)) <$> f x) l) = None.
Proof.
  intros Hk. apply dict_get_None_keys. intros Hin. apply Hk.
  eapply elem_of_sublist; [exact Hin | apply omap_keys_sublist].
Qed.

Section report.
Variable w : world.
Variables player_id season : Z.

Local Abbreviation stored := (stored_entry w player_id season).

(** One turn of the outer loop stores what [stored_entry] lists for the
    pitch, in the order of [dims_of_pitch]. *)
Lemma pitch_step_entries acc pitch :
  pitch_step w player_id season acc pitch =
  set_all acc (omap stored (dims_of_pitch pitch)).
Proof.
  unfold pitch_step, hand_step, loc_step, set_all, stored_entry, stored_dim,
    dims_of_pitch, dims_of_hand, pitcher_hands, locations.
  simpl.
  destruct (enough 5 (fetch_dim w player_id season (ByPitch pitch))); simpl;
    [|done].
  destruct (enough 5 (fetch_dim w player_id season (ByHand pitch "L")));
    simpl;
    [destruct (enough 5 (fetch_dim w player_id season (ByLoc pitch "L" "Home")));
     simpl;
     destruct (enough 5 (fetch_dim w player_id season (ByLoc pitch "L" "Road")));
     simpl|];
    (destruct (enough 5 (fetch_dim w player_id season (ByHand pitch "R")));
     simpl;
     [destruct (enough 5 (fetch_dim w player_id season (ByLoc pitch "R" "Home")));
      simpl;
      destruct (enough 5 (fetch_dim w player_id season (ByLoc pitch "R" "Road")));
      simpl|]); reflexivity.
Qed.

Lemma pitch_loop_entries pitches acc :
  foldl (pitch_step w player_id season) acc pitches =
  set_all acc (omap stored (pitches ≫= dims_of_pitch)).
Proof.
  revert acc. induction pitches as [|pitch pitches IH]; intros acc.
  - reflexivity.
  - rewrite bind_cons, omap_app, set_all_app, <-pitch_step_entries.
    apply IH.
Qed.

Lemma pitch_keys_NoDup : NoDup (split_key <$> all_pitch_dims).
Proof. exact (proj1 (proj1 (NoDup_app _ _) all_keys_NoDup)). Qed.

(** The first loop leaves the qualifying pitch dimensions in visiting
    order. *)
Lemma pitch_phase_closed :
  pitch_phase w player_id season = omap stored all_pitch_dims.
Proof.
  unfold pitch_phase. rewrite pitch_loop_entries.
  fold all_pitch_dims.
  rewrite foldl_dict_set_fresh; [apply app_nil_l|].
  rewrite app_nil_l.
  eapply sublist_NoDup; [exact pitch_keys_NoDup|].
  apply (omap_keys_sublist split_key (stored_dim w player_id season)).
Qed.

End report.

(** The second loop, started from any result [first] of the first loop. *)
Section group_phase.
Variable w : world.
Variable first : dict SplitRecord.

Local Abbreviation rollups := (group_entry w first).

Lemma hand_key_not_group pitch hand gh :
  split_key (ByHand pitch hand) ≠ group_key gh.
Proof. unfold group_key. simpl. discriminate. Qed.

Lemma group_hand_data_same acc group_pitches hand :
  same_hands first acc →
  group_hand_data acc group_pitches hand =
  group_hand_data first group_pitches hand.
Proof.
  intros Hsame. unfold group_hand_data.
  induction group_pitches as [|pitch l IH]; [reflexivity|].
  cbn [omap list_omap]. by rewrite Hsame, IH.
Qed.

Lemma same_hands_set_all acc (l : list (string * list string * string)) :
  same_hands first acc → same_hands first (set_all acc (omap rollups l)).
Proof.
  revert acc. induction l as [|gh l IH]; intros acc Hsame; [exact Hsame|].
  cbn [omap list_omap]. unfold group_entry at 1.
  destruct (group_rollup _ _ _ _) as [v|]; cbn [fmap option_fmap option_map];
    [|by apply IH].
  change (set_all acc ((group_key gh, v) :: omap rollups l))
    with (set_all (dict_set acc (group_key gh) v) (omap rollups l)).
  apply IH. intros pitch hand.
  rewrite dict_get_set, decide_False; [apply Hsame|].
  apply hand_key_not_group.
Qed.

Lemma group_hand_step_entry group_name group_pitches acc hand :
  same_hands first acc →
  group_hand_step w group_name group_pitches acc hand =
  set_all acc (omap rollups [(group_name, group_pitches, hand)]).
Proof.
  intros Hsame. unfold group_hand_step, group_entry.
  cbn [omap list_omap fst snd].
  rewrite (group_hand_data_same acc) by exact Hsame.
  by destruct (group_rollup _ _ _ _).
Qed.

Lemma group_hand_loop group_name group_pitches hands acc :
  same_hands first acc →
  foldl (group_hand_step w group_name group_pitches) acc hands =
  set_all acc
    (omap rollups ((λ hand, (group_name, group_pitches, hand)) <$> hands)).
Proof.
  revert acc. induction hands as [|hand hands IH]; intros acc Hsame;
    [reflexivity|].
  rewrite fmap_cons.
  change (?x :: ?l) with ([x] ++ l) at 2.
  rewrite omap_app, set_all_app, <-group_hand_step_entry by exact Hsame.
  apply IH. rewrite group_hand_step_entry by exact Hsame.
  by apply same_hands_set_all.
Qed.

Lemma group_loop (groups : dict (list string)) acc :
  same_hands first acc →
  foldl (group_step w) acc groups =
  set_all acc
    (omap rollups (groups ≫= λ g, (λ hand, (g, hand)) <$> pitcher_hands)).
Proof.
  revert acc. induction groups as [|[g gp] groups IH]; intros acc Hsame;
    [reflexivity|].
  rewrite bind_cons, omap_app, set_all_app.
  rewrite <-(group_hand_loop g gp pitcher_hands acc Hsame).
  apply IH. rewrite group_hand_loop by exact Hsame.
  by apply same_hands_set_all.
Qed.

End group_phase.

(** The whole report. *)
Section report_lookup.
Variable w : world.
Variables player_id season : Z.

Local Abbreviation first_loop := (pitch_phase w player_id season).
Local Abbreviation report := (get_detailed_pitch_splits w player_id season).

Lemma first_loop_keys :
  dict_keys first_loop `sublist_of` split_key <$> all_pitch_dims.
Proof.
  rewrite pitch_phase_closed.
  apply (omap_keys_sublist split_key (stored_dim w player_id season)).
Qed.

Lemma group_phase_closed (first : dict SplitRecord) :
  NoDup (dict_keys first ++ (group_key <$> all_group_dims)) →
  foldl (group_step w) first pitch_groups =
  first ++ omap (group_entry w first) all_group_dims.
Proof.
  intros Hnd.
  rewrite (group_loop w first) by (intros ? ?; reflexivity).
  unfold all_group_dims.
  apply foldl_dict_set_fresh.
  unfold dict_keys in *. rewrite fmap_app.
  eapply sublist_NoDup; [exact Hnd|].
  apply sublist_app; [reflexivity|].
  apply (omap_keys_sublist group_key
           (λ gh, group_rollup w gh.1.1 gh.2
                    (group_hand_data first gh.1.2 gh.2))).
Qed.

Lemma report_keys_NoDup :
  NoDup (dict_keys first_loop ++ (group_key <$> all_group_dims)).
Proof.
  eapply sublist_NoDup; [exact all_keys_NoDup|].
  apply sublist_app; [apply first_loop_keys | reflexivity].
Qed.

(** The report: the qualifying pitch dimensions in visiting order, then
    the rollups computed from them. *)
Lemma report_closed :
  splits report = first_loop ++ omap (group_entry w first_loop) all_group_dims.
Proof. exact (group_phase_closed first_loop report_keys_NoDup). Qed.

Lemma first_loop_lookup d :
  d ∈ all_pitch_dims →
  dict_get (split_key d) first_loop = stored_dim w player_id season d.
Proof.
  intros Hd. rewrite pitch_phase_closed. unfold stored_entry.
  apply (dict_get_omap split_key); [exact pitch_keys_NoDup | exact Hd].
Qed.

Lemma pitch_key_not_group d gh :
  d ∈ all_pitch_dims → gh ∈ all_group_dims → split_key d ≠ group_key gh.
Proof.
  intros Hd Hgh Heq.
  pose proof all_keys_NoDup as Hnd.
  apply NoDup_app in Hnd as (_ & Hdis & _).
  apply (Hdis (split_key d)).
  - apply list_elem_of_fmap. eauto.
  - rewrite Heq. apply list_elem_of_fmap. eauto.
Qed.

Lemma report_pitch_lookup d :
  d ∈ all_pitch_dims →
  dict_get (split_key d) (splits report) = stored_dim w player_id season d.
Proof.
  intros Hd. rewrite report_closed, dict_get_app, first_loop_lookup by exact Hd.
  destruct (stored_dim w player_id season d); [reflexivity|].
  apply (dict_get_omap_None group_key).
  intros Hin. apply list_elem_of_fmap in Hin as (gh & Heq & Hgh).
  by apply (pitch_key_not_group d gh).
Qed.

Lemma report_same_hands : same_hands first_loop (splits report).
Proof.
  intros pitch hand. rewrite report_closed, dict_get_app.
  destruct (dict_get _ first_loop) eqn:Hget; [reflexivity|].
  apply (dict_get_omap_None group_key).
  intros Hin. apply list_elem_of_fmap in Hin as (gh & Heq & _).
  by apply hand_key_not_group in Heq.
Qed.

Lemma report_hand_data group_pitches hand :
  group_hand_data (splits report) group_pitches hand =
  group_hand_data first_loop group_pitches hand.
Proof. apply group_hand_data_same, report_same_hands. Qed.

Lemma report_group_lookup gh :
  gh ∈ all_group_dims →
  dict_get (group_key gh) (splits report) =
  group_rollup w gh.1.1 gh.2 (group_hand_data (splits report) gh.1.2 gh.2).
Proof.
  intros Hgh. rewrite report_hand_data.
  rewrite report_closed, dict_get_app.
  assert (dict_get (group_key gh) first_loop = None) as ->.
  { apply dict_get_None_keys. intros Hin.
    eapply elem_of_sublist in Hin; [|apply first_loop_keys].
    apply list_elem_of_fmap in Hin as (d & Heq & Hd).
    by apply (pitch_key_not_group d gh). }
  unfold group_entry.
  apply (dict_get_omap group_key
           (λ gh, group_rollup w gh.1.1 gh.2
                    (group_hand_data first_loop gh.1.2 gh.2))); [|exact Hgh].
  exact (proj2 (proj2 (proj1 (NoDup_app _ _) all_keys_NoDup))).
Qed.

(** Every entry of the report is a stored pitch dimension or a rollup. *)
Lemma report_entries k v :
  (k, v) ∈ splits report →
  (∃ d, d ∈ all_pitch_dims ∧ k = split_key d ∧
        stored_dim w player_id season d = Some v) ∨
  (∃ gh, gh ∈ all_group_dims ∧ k = group_key gh ∧
         group_rollup w gh.1.1 gh.2
           (group_hand_data (splits report) gh.1.2 gh.2) = Some v).
Proof.
  rewrite report_closed at 1. rewrite pitch_phase_closed at 1.
  rewrite elem_of_app, !list_elem_of_omap.
  intros [(d & Hd & Hst)|(gh & Hgh & Hst)]; [left; exists d | right; exists gh].
  - unfold stored_entry in Hst.
    destruct (stored_dim w player_id season d); [|discriminate].
    injection Hst as <- <-. auto.
  - unfold group_entry in Hst. rewrite report_hand_data.
    destruct (group_rollup _ _ _ _); [|discriminate].
    injection Hst as <- <-. auto.
Qed.

End report_lookup.

(** ** Aggregator: thresholds and gating *)

Lemma enough_Some n data v :
  enough n data = Some v → data = Some v ∧ n ≤ atBats v.
Proof.
  unfold enough. destruct data as [v'|]; [|discriminate].
  case_decide; [|discriminate]. intros [= ->]. auto.
Qed.

Lemma Z_sum_lower_bound (l : list Z) :
  Forall (λ x, 5 ≤ x) l → l ≠ [] → 5 ≤ Z_sum l.
Proof.
  induction 1 as [|x l Hx Hl IH]; [done|]. intros _. simpl.
  destruct l as [|y l]; [simpl; lia|].
  assert (5 ≤ Z_sum (y :: l)) by (by apply IH). lia.
Qed.

Lemma group_hand_data_elem acc group_pitches hand x :
  x ∈ group_hand_data acc group_pitches hand →
  ∃ pitch, pitch ∈ group_pitches ∧
           dict_get (split_key (ByHand pitch hand)) acc = Some x.
Proof. unfold group_hand_data. by rewrite list_elem_of_omap. Qed.

Lemma group_rollup_Some w group_name hand hand_data v :
  group_rollup w group_name hand hand_data = Some v →
  hand_data ≠ [] ∧
  avg v = Num (py_round3 (Qc_sum (numeric_avgs hand_data) /
                          Qc_of_Z (Z.of_nat (length hand_data)))%Qc) ∧
  atBats v = Z_sum (atBats <$> hand_data) ∧
  homeRuns v = Z_sum (homeRuns <$> hand_data).
Proof.
  unfold group_rollup, numeric_avgs.
  destruct hand_data as [|x l]; [discriminate|].
  case_decide; [|discriminate]. intros [= <-]. auto.
Qed.

Lemma group_rollup_is_Some w group_name hand hand_data :
  hand_data ≠ [] → 0 < Z_sum (atBats <$> hand_data) →
  is_Some (group_rollup w group_name hand hand_data).
Proof.
  unfold group_rollup. destruct hand_data as [|x l]; [done|].
  intros _ Hpos. rewrite decide_True; [eauto|].
  split; [simpl; lia | exact Hpos].
Qed.

Lemma prefix_nil (s : string) : String.prefix "" s = true.
Proof. by destruct s. Qed.

Section thresholds.
Variable w : world.
Variables player_id season : Z.

Local Abbreviation report := (get_detailed_pitch_splits w player_id season).

Lemma stored_dim_Some d v :
  stored_dim w player_id season d = Some v →
  fetch_dim w player_id season d = Some v ∧ 5 ≤ atBats v.
Proof.
  destruct d as [p|p h|p h l|g h]; simpl; intros Hst.
  - by apply enough_Some.
  - destruct (enough 5 (fetch_dim _ _ _ (ByPitch p))); [|discriminate].
    by apply enough_Some.
  - destruct (enough 5 (fetch_dim _ _ _ (ByPitch p))); [|discriminate].
    simpl in Hst.
    destruct (enough 5 (fetch_dim _ _ _ (ByHand p h))); [|discriminate].
    by apply enough_Some.
  - discriminate.
Qed.

(** Each record of the report, pitch or group, has five at-bats or more. *)
Lemma report_at_least_five k v :
  (k, v) ∈ splits report → 5 ≤ atBats v.
Proof.
  intros Hin. apply report_entries in Hin as [(d & _ & _ & Hst)|(gh & _ & _ & Hr)].
  - by apply stored_dim_Some in Hst as [_ ?].
  - apply group_rollup_Some in Hr as (Hne & _ & -> & _).
    apply Z_sum_lower_bound; [|by destruct (group_hand_data _ _ _)].
    apply Forall_fmap, Forall_forall. intros x Hx. simpl.
    apply group_hand_data_elem in Hx as (pitch & _ & Hget).
    apply dict_get_Some_elem, report_entries in Hget
      as [(d & _ & _ & Hst)|(gh' & _ & Heq & _)].
    + by apply stored_dim_Some in Hst as [_ ?].
    + by apply hand_key_not_group in Heq.
Qed.

Lemma report_key_prefix k v :
  (k, v) ∈ splits report →
  starts_with "pitch_" k = true ∨ starts_with "group_" k = true.
Proof.
  intros Hin. apply report_entries in Hin as [(d & _ & -> & Hst)|(gh & _ & -> & _)].
  - left. destruct d; [unfold starts_with; simpl; apply prefix_nil..|].
    discriminate Hst.
  - right. unfold starts_with, group_key. simpl. apply prefix_nil.
Qed.

(** A pitch dimension whose fetch gives nothing, or fewer than five
    at-bats, is not a key of the report. *)
Lemma report_omits d :
  d ∈ all_pitch_dims →
  enough 5 (fetch_dim w player_id season d) = None →
  dict_get (split_key d) (splits report) = None.
Proof.
  intros Hd Hnone. rewrite report_pitch_lookup by exact Hd.
  destruct (stored_dim w player_id season d) as [v|] eqn:Hst; [|reflexivity].
  apply stored_dim_Some in Hst as [Hf Hab].
  rewrite Hf in Hnone. simpl in Hnone. by rewrite decide_True in Hnone.
Qed.

End thresholds.

(** C2 fails as stated for the rollups: six at-bats against left-handed
    four-seamers are stored under a group key. *)
Lemma small_sample_group_below_ten :
  ∃ v, dict_get "group_Fastball_hand_L"
         (splits (get_detailed_pitch_splits Samples.small_sample 660271 2024))
       = Some v ∧
       starts_with "group_" "group_Fastball_hand_L" = true ∧
       atBats v = 6.
Proof. eexists. split; [vm_compute; reflexivity|]. split; reflexivity. Qed.

(** C2, amended: every record of the report, under a ["pitch_"] key or a
    ["group_"] key, has at least five at-bats, every key is of one of the two
    kinds, and a pitch dimension whose fetch gives nothing or fewer than
    five at-bats is not a key of the report. *)
Theorem stored_records_clear_five (w : world) (player_id season : Z) :
  (∀ key v,
     dict_get key (splits (get_detailed_pitch_splits w player_id season)) = Some v →
     5 ≤ atBats v ∧
     (starts_with "pitch_" key = true ∨ starts_with "group_" key = true)) ∧
  (∀ d, d ∈ all_pitch_dims →
     enough 5 (fetch_dim w player_id season d) = None →
     dict_get (split_key d) (splits (get_detailed_pitch_splits w player_id season))
     = None).
Proof.
  split.
  - intros key v Hget. apply dict_get_Some_elem in Hget. split.
    + by eapply report_at_least_five.
    + by eapply report_key_prefix.
  - intros d Hd Hnone. by apply report_omits.
Qed.

Lemma enough_is_Some n data :
  is_Some (enough n data) ↔ ∃ v, data = Some v ∧ n ≤ atBats v.
Proof.
  split.
  - intros [v Hv]. exists v. by apply enough_Some.
  - intros (v & -> & Hn). simpl. rewrite decide_True by exact Hn. eauto.
Qed.

Lemma pitch_dims_elem pitch hand location :
  pitch ∈ pitch_types → hand ∈ pitcher_hands → location ∈ locations →
  ByPitch pitch ∈ all_pitch_dims ∧
  ByHand pitch hand ∈ all_pitch_dims ∧
  ByLoc pitch hand location ∈ all_pitch_dims.
Proof.
  intros Hp Hh Hl. unfold all_pitch_dims.
  rewrite !list_elem_of_bind. repeat split; exists pitch; (split; [|exact Hp]).
  - apply list_elem_of_here.
  - apply list_elem_of_further, list_elem_of_bind. exists hand.
    split; [apply list_elem_of_here | exact Hh].
  - apply list_elem_of_further, list_elem_of_bind. exists hand.
    split; [|exact Hh].
    apply list_elem_of_further, list_elem_of_fmap. eauto.
Qed.

Section gating.
Variable w : world.
Variables player_id season : Z.

Local Abbreviation report := (get_detailed_pitch_splits w player_id season).
Local Abbreviation clears d :=
  (∃ v, fetch_dim w player_id season d = Some v ∧ 5 ≤ atBats v).

(** One turn of the traced loop: the dictionary of the plain loop, and the
    fetches of [issued_for_pitch] appended to the log. *)
Lemma pitch_step_traced_split st pitch :
  pitch_step_traced w player_id season st pitch =
  (pitch_step w player_id season st.1 pitch,
   st.2 ++ issued_for_pitch w player_id season pitch).
Proof.
  destruct st as [acc log].
  unfold pitch_step_traced, hand_step_traced, loc_step_traced, pitch_step,
    hand_step, loc_step, issued_for_pitch, issued_for_hand, pitcher_hands,
    locations.
  cbn [fst snd foldl mbind list_bind fmap list_fmap].
  destruct (enough 5 (fetch_dim w player_id season (ByPitch pitch)));
    cbn [fst snd foldl]; [|reflexivity].
  destruct (enough 5 (fetch_dim w player_id season (ByHand pitch "L")));
    cbn [fst snd foldl];
    [destruct (enough 5 (fetch_dim w player_id season (ByLoc pitch "L" "Home")));
     cbn [fst snd foldl];
     destruct (enough 5 (fetch_dim w player_id season (ByLoc pitch "L" "Road")));
     cbn [fst snd foldl]|];
    (destruct (enough 5 (fetch_dim w player_id season (ByHand pitch "R")));
     cbn [fst snd foldl];
     [destruct (enough 5 (fetch_dim w player_id season (ByLoc pitch "R" "Home")));
      cbn [fst snd foldl];
      destruct (enough 5 (fetch_dim w player_id season (ByLoc pitch "R" "Road")));
      cbn [fst snd foldl]|]);
    f_equal; rewrite <-?app_assoc; reflexivity.
Qed.

Lemma pitch_loop_traced_split pitches st :
  foldl (pitch_step_traced w player_id season) st pitches =
  (foldl (pitch_step w player_id season) st.1 pitches,
   st.2 ++ (pitches ≫= issued_for_pitch w player_id season)).
Proof.
  revert st. induction pitches as [|pitch pitches IH]; intros st.
  - cbn [foldl mbind list_bind]. rewrite app_nil_r. by destruct st.
  - cbn [foldl]. rewrite IH, pitch_step_traced_split. cbn [fst snd].
    by rewrite bind_cons, app_assoc.
Qed.

(** The traced loop computes the dictionary of the plain loop. *)
Lemma pitch_phase_traced_dict :
  (pitch_phase_traced w player_id season).1 = pitch_phase w player_id season.
Proof. unfold pitch_phase_traced. by rewrite pitch_loop_traced_split. Qed.

Lemma issued_fetches_closed :
  issued_fetches w player_id season =
  pitch_types ≫= issued_for_pitch w player_id season.
Proof.
  unfold issued_fetches, pitch_phase_traced.
  by rewrite pitch_loop_traced_split.
Qed.

Lemma issued_hand pitch hand :
  ByHand pitch hand ∈ issued_fetches w player_id season →
  clears (ByPitch pitch).
Proof.
  rewrite issued_fetches_closed, list_elem_of_bind.
  intros (p & Hin & _). unfold issued_for_pitch in Hin.
  apply elem_of_cons in Hin as [[=]|Hin].
  destruct (enough 5 (fetch_dim w player_id season (ByPitch p))) eqn:He;
    [|by apply elem_of_nil in Hin].
  apply list_elem_of_bind in Hin as (h & Hin & _).
  unfold issued_for_hand in Hin.
  apply elem_of_cons in Hin as [[= -> ->]|Hin].
  - apply enough_is_Some. eauto.
  - destruct (enough 5 (fetch_dim w player_id season (ByHand p h)));
      [|by apply elem_of_nil in Hin].
    apply list_elem_of_fmap in Hin as (l & [=] & _).
Qed.

Lemma issued_loc pitch hand location :
  ByLoc pitch hand location ∈ issued_fetches w player_id season →
  clears (ByHand pitch hand).
Proof.
  rewrite issued_fetches_closed, list_elem_of_bind.
  intros (p & Hin & _). unfold issued_for_pitch in Hin.
  apply elem_of_cons in Hin as [[=]|Hin].
  destruct (enough 5 (fetch_dim w player_id season (ByPitch p)));
    [|by apply elem_of_nil in Hin].
  apply list_elem_of_bind in Hin as (h & Hin & _).
  unfold issued_for_hand in Hin.
  apply elem_of_cons in Hin as [[=]|Hin].
  destruct (enough 5 (fetch_dim w player_id season (ByHand p h))) eqn:He;
    [|by apply elem_of_nil in Hin].
  apply list_elem_of_fmap in Hin as (l & [= -> -> ->] & _).
  apply enough_is_Some. eauto.
Qed.

Lemma stored_loc_hand pitch hand location :
  is_Some (stored_dim w player_id season (ByLoc pitch hand location)) →
  is_Some (stored_dim w player_id season (ByHand pitch hand)).
Proof.
  cbn [stored_dim].
  destruct (enough 5 (fetch_dim _ _ _ (ByPitch pitch))); simpl; [|done].
  destruct (enough 5 (fetch_dim _ _ _ (ByHand pitch hand))); simpl; eauto.
Qed.

Lemma stored_hand_pitch pitch hand :
  is_Some (stored_dim w player_id season (ByHand pitch hand)) →
  is_Some (stored_dim w player_id season (ByPitch pitch)).
Proof.
  cbn [stored_dim].
  destruct (enough 5 (fetch_dim _ _ _ (ByPitch pitch))); simpl; eauto.
Qed.

End gating.

(** C5: a by-handedness fetch is issued only when the pitch type's overall
    record has five at-bats or more, a by-location fetch only when the
    pitch-and-handedness record has; a location key in the report comes
    with its pitch-and-handedness key, and that one with its pitch key. *)
Theorem expansion_is_gated (w : world) (player_id season : Z)
    (pitch hand location : string) :
  pitch ∈ pitch_types → hand ∈ pitcher_hands → location ∈ locations →
  (ByHand pitch hand ∈ issued_fetches w player_id season →
   ∃ v, fetch_dim w player_id season (ByPitch pitch) = Some v ∧ 5 ≤ atBats v) ∧
  (ByLoc pitch hand location ∈ issued_fetches w player_id season →
   ∃ v, fetch_dim w player_id season (ByHand pitch hand) = Some v ∧
        5 ≤ atBats v) ∧
  (is_Some (dict_get (split_key (ByLoc pitch hand location))
              (splits (get_detailed_pitch_splits w player_id season))) →
   is_Some (dict_get (split_key (ByHand pitch hand))
              (splits (get_detailed_pitch_splits w player_id season)))) ∧
  (is_Some (dict_get (split_key (ByHand pitch hand))
              (splits (get_detailed_pitch_splits w player_id season))) →
   is_Some (dict_get (split_key (ByPitch pitch))
              (splits (get_detailed_pitch_splits w player_id season)))).
Proof.
  intros Hp Hh Hl.
  destruct (pitch_dims_elem pitch hand location Hp Hh Hl) as (H1 & H2 & H3).
  rewrite !report_pitch_lookup by assumption.
  split; [apply issued_hand|]. split; [apply issued_loc|].
  split; [apply stored_loc_hand | apply stored_hand_pitch].
Qed.

Lemma expansion_is_gated_witness :
  ("CU"%string ∈ pitch_types ∧ "L"%string ∈ pitcher_hands ∧
   "Home"%string ∈ locations) ∧
  ByHand "CU" "L" ∈ issued_fetches Samples.breaking_vs_left 660271 2024 ∧
  ∃ v, fetch_dim Samples.breaking_vs_left 660271 2024 (ByPitch "CU") = Some v ∧
       5 ≤ atBats v.
Proof.
  assert ("CU"%string ∈ pitch_types) as Hp
    by (refine (bool_decide_unpack _ _); vm_compute; exact I).
  assert ("L"%string ∈ pitcher_hands) as Hh
    by (refine (bool_decide_unpack _ _); vm_compute; exact I).
  assert ("Home"%string ∈ locations) as Hl
    by (refine (bool_decide_unpack _ _); vm_compute; exact I).
  assert (ByHand "CU" "L" ∈ issued_fetches Samples.breaking_vs_left 660271 2024)
    as Hi by (refine (bool_decide_unpack _ _); vm_compute; exact I).
  split; [auto|]. split; [exact Hi|].
  exact (proj1 (expansion_is_gated Samples.breaking_vs_left 660271 2024
                  "CU" "L" "Home" Hp Hh Hl) Hi).
Defined.

(** ** Failed fetches *)



Section independence.
Variables w w' : world.
Variables player_id season : Z.
Variable d : split_dim.

(** [w'] answers as [w] does, except perhaps to the query of [d]. *)
Hypothesis same_responses :
  ∀ q, q ≠ query_of player_id season (dim_params d) →
       http_get w' q = http_get w q.
Hypothesis same_clock : ∀ site, now w' site = now w site.



End independence.




(** The flat caller: each basic split is what its own fetch returns. *)
Lemma collect_basic_lookup w player_id season :
  let basic := collect_basic_splits w player_id season in
  dict_get "overall" basic =
    get_baseball_savant_data w player_id season "overall" "total" ∧
  dict_get "vs RHP" basic =
    get_baseball_savant_data w player_id season "pitcher_throws" "R" ∧
  dict_get "vs LHP" basic =
    get_baseball_savant_data w player_id season "pitcher_throws" "L" ∧
  dict_get "Home" basic =
    get_baseball_savant_data w player_id season "home_road" "Home" ∧
  dict_get "Away" basic =
    get_baseball_savant_data w player_id season "home_road" "Road".
Proof.
  unfold collect_basic_splits. cbn [foldl fst snd].
  destruct (get_baseball_savant_data w player_id season "overall" "total");
    destruct (get_baseball_savant_data w player_id season "pitcher_throws" "R");
    destruct (get_baseball_savant_data w player_id season "pitcher_throws" "L");
    destruct (get_baseball_savant_data w player_id season "home_road" "Home");
    destruct (get_baseball_savant_data w player_id season "home_road" "Road");
    repeat split; vm_compute; reflexivity.
Qed.

(** ** Fetchers: what a returned record holds *)

Lemma first_row_Some rows data :
  first_row rows = Some data → ∃ rest, rows = data :: rest ∧ data ≠ ∅.
Proof.
  destruct rows as [|r rest]; [discriminate|]. simpl.
  case_decide; [discriminate|]. intros [= <-]. eauto.
Qed.

(** A record comes back only from a 200 answer whose first row has
    positive at-bats, and its fields are read from that row. *)
Lemma combined_fetch_Some w player_id season ps r :
  get_combined_split_data w player_id season ps = Some r →
  ∃ data rest ab,
    http_get w (query_of player_id season ps) = Http 200 (CsvFrame (data :: rest)) ∧
    data !! "abs"%string = Some ab ∧ (0 < ab)%Qc ∧
    avg r = from_option Num NA (data !! "ba"%string) ∧
    slg r = Some (from_option Num NA (data !! "slg"%string)) ∧
    obp r = Some (from_option Num NA (data !! "obp"%string)) ∧
    ops r = match data !! "obp"%string, data !! "slg"%string with
            | Some ob, Some sl => Num (ob + sl)%Qc
            | _, _ => NA
            end ∧
    homeRuns r = from_option py_int 0 (data !! "hrs"%string) ∧
    hits r = Some (from_option py_int 0 (data !! "hits"%string)) ∧
    atBats r = py_int ab ∧
    plateAppearances r = Some (from_option py_int 0 (data !! "pa"%string)) ∧
    strikeOuts r = Some (from_option py_int 0 (data !! "so"%string)) ∧
    baseOnBalls r = Some (from_option py_int 0 (data !! "bb"%string)).
Proof.
  unfold get_combined_split_data.
  destruct (http_get w _) as [|status body]; [discriminate|].
  case_decide as Hst; [subst status|discriminate].
  destruct body as [|rows]; [discriminate|].
  destruct (first_row rows) as [data|] eqn:Hrow; [|discriminate].
  apply first_row_Some in Hrow as (rest & -> & _).
  destruct (data !! "abs"%string) as [ab|] eqn:Hab; [|discriminate].
  case_decide as Hpos; [|discriminate].
  intros [= <-]. exists data, rest, ab. cbn. rewrite Hab. cbn.
  repeat split; done.
Qed.



Lemma savant_fetch_Some w player_id season parameter_name parameter_value r :
  get_baseball_savant_data w player_id season parameter_name parameter_value
    = Some r →
  ∃ data rest ob sl,
    http_get w (basic_query player_id season parameter_name parameter_value)
      = Http 200 (CsvFrame (data :: rest)) ∧
    missing_columns data = [] ∧
    data !! "obp"%string = Some ob ∧ data !! "slg"%string = Some sl ∧
    obp r = Some (Num ob) ∧ slg r = Some (Num sl) ∧ ops r = Num (ob + sl)%Qc.
Proof.
  unfold get_baseball_savant_data.
  destruct (http_get w _) as [|status body]; [discriminate|].
  case_decide as Hst; [subst status|discriminate].
  destruct body as [|rows]; [discriminate|].
  destruct (first_row rows) as [data|] eqn:Hrow; [|discriminate].
  apply first_row_Some in Hrow as (rest & -> & _).
  destruct (missing_columns data) eqn:Hmiss; [|discriminate].
  intros Hr. exists data, rest.
  destruct (data !! "ba"%string); [|discriminate].
  destruct (data !! "slg"%string) as [sl|]; [|discriminate].
  destruct (data !! "obp"%string) as [ob|]; [|discriminate].
  exists ob, sl. simpl in Hr.
  repeat (match type of Hr with
          | context [?m !! ?k] => destruct (m !! k); simpl in Hr; [|discriminate]
          end).
  match type of Hr with
  | context [if ?c then _ else _] => destruct c; simpl in Hr
  end;
  repeat (match type of Hr with
          | context [if ?c then _ else _] => destruct c; simpl in Hr
          end);
  try discriminate; injection Hr as <-; repeat split;
  first [exact Hmiss | reflexivity].
Qed.

Lemma filter_ext_in {A} (P Q : A → Prop) `{!∀ x, Decision (P x)}
    `{!∀ x, Decision (Q x)} (l : list A) :
  (∀ x, x ∈ l → (P x ↔ Q x)) → filter P l = filter Q l.
Proof.
  induction l as [|a l IH]; intros Hext; [reflexivity|].
  rewrite !filter_cons.
  rewrite IH by (intros y Hy; apply Hext; by apply list_elem_of_further).
  destruct (Hext a (list_elem_of_here _ _)).
  repeat case_decide; tauto.
Qed.

Lemma ops_not_required : "ops"%string ∉ required_columns.
Proof. refine (bool_decide_unpack _ _). vm_compute. exact I. Qed.

Lemma missing_columns_empty : ∃ col rest, missing_columns ∅ = col :: rest.
Proof.
  unfold missing_columns, required_columns.
  rewrite filter_cons_True by apply lookup_empty. eauto.
Qed.

(** An [ops] column in the export changes nothing. *)
Section upstream_ops.
Variable w : world.
Variable x : Qc.
Variables player_id season : Z.

Local Abbreviation w' := (with_column "ops" x w).

Lemma first_row_with_ops rows :
  first_row ((λ r : row, <["ops"%string := x]> r) <$> rows) =
  match rows with
  | r :: _ => Some (<["ops"%string := x]> r)
  | [] => None
  end.
Proof.
  destruct rows as [|r rest]; [reflexivity|]. cbn [fmap list_fmap first_row].
  rewrite decide_False; [reflexivity|]. apply insert_non_empty.
Qed.

Lemma lookup_with_ops (r : row) col :
  col ≠ "ops"%string → (<["ops"%string := x]> r) !! col = r !! col.
Proof. intros Hne. by apply lookup_insert_ne. Qed.

Lemma missing_columns_with_ops (r : row) :
  missing_columns (<["ops"%string := x]> r) = missing_columns r.
Proof.
  unfold missing_columns. apply filter_ext_in. intros col Hcol.
  rewrite lookup_with_ops; [reflexivity|].
  intros ->. by apply ops_not_required.
Qed.

Lemma combined_ignores_upstream_ops ps :
  get_combined_split_data w' player_id season ps =
  get_combined_split_data w player_id season ps.
Proof.
  unfold get_combined_split_data. cbn [http_get with_column now].
  destruct (http_get w _) as [|status body]; [reflexivity|].
  destruct body as [|rows]; [reflexivity|].
  case_decide; [|reflexivity].
  rewrite first_row_with_ops.
  destruct rows as [|r rest]; [reflexivity|]. cbn [first_row].
  rewrite !lookup_with_ops by discriminate.
  destruct (decide (r = ∅)) as [->|Hne]; [|reflexivity].
  by rewrite !lookup_empty.
Qed.

Lemma savant_ignores_upstream_ops parameter_name parameter_value :
  get_baseball_savant_data w' player_id season parameter_name parameter_value =
  get_baseball_savant_data w player_id season parameter_name parameter_value.
Proof.
  unfold get_baseball_savant_data. cbn [http_get with_column now].
  destruct (http_get w _) as [|status body]; [reflexivity|].
  destruct body as [|rows]; [reflexivity|].
  case_decide; [|reflexivity].
  rewrite first_row_with_ops.
  destruct rows as [|r rest]; [reflexivity|]. cbn [first_row].
  rewrite missing_columns_with_ops.
  destruct (decide (r = ∅)) as [->|Hne].
  - by destruct missing_columns_empty as (col & cols & ->).
  - by rewrite !lookup_with_ops by discriminate.
Qed.

End upstream_ops.

(** C3: in every record a fetcher returns from an export that has both
    the [obp] and the [slg] column, [ops] is their sum computed here; an
    [ops] column of the export, whatever it holds, is not read. *)
Theorem ops_is_recomputed (w : world) (player_id season : Z) :
  (∀ ps r data rest ob sl,
     get_combined_split_data w player_id season ps = Some r →
     http_get w (query_of player_id season ps)
       = Http 200 (CsvFrame (data :: rest)) →
     data !! "obp"%string = Some ob → data !! "slg"%string = Some sl →
     obp r = Some (Num ob) ∧ slg r = Some (Num sl) ∧ ops r = Num (ob + sl)%Qc) ∧
  (∀ parameter_name parameter_value r,
     get_baseball_savant_data w player_id season parameter_name parameter_value
       = Some r →
     ∃ ob sl, obp r = Some (Num ob) ∧ slg r = Some (Num sl) ∧
              ops r = Num (ob + sl)%Qc) ∧
  (∀ x ps,
     get_combined_split_data (with_column "ops" x w) player_id season ps =
     get_combined_split_data w player_id season ps) ∧
  (∀ x parameter_name parameter_value,
     get_baseball_savant_data (with_column "ops" x w) player_id season
       parameter_name parameter_value =
     get_baseball_savant_data w player_id season parameter_name parameter_value).
Proof.
  split; [|split; [|split]].
  - intros ps r data rest ob sl Hr Hresp Hob Hsl.
    apply combined_fetch_Some in Hr
      as (data' & rest' & ab & Hresp' & _ & _ & _ & -> & -> & -> & _).
    rewrite Hresp in Hresp'. injection Hresp' as <- <-.
    by rewrite Hob, Hsl.
  - intros parameter_name parameter_value r Hr.
    apply savant_fetch_Some in Hr as (data & rest & ob & sl & _ & _ & _ & _ & ?).
    eauto.
  - intros. apply combined_ignores_upstream_ops.
  - intros. apply savant_ignores_upstream_ops.
Qed.

Lemma ops_is_recomputed_witness :
  ∃ r, get_combined_split_data Samples.breaking_vs_left 660271 2024
         (Samples.on "CU") = Some r ∧
       obp r = Some (Num (milli 300)) ∧ slg r = Some (Num (milli 400)) ∧
       ops r = Num (milli 300 + milli 400)%Qc.
Proof.
  destruct (get_combined_split_data Samples.breaking_vs_left 660271 2024
              (Samples.on "CU")) as [r|] eqn:Hr;
    [|vm_compute in Hr; discriminate Hr].
  exists r. split; [reflexivity|].
  assert (http_get Samples.breaking_vs_left
            (query_of 660271 2024 (Samples.on "CU"))
          = Http 200 (CsvFrame
              [Samples.stat_row (milli 280) (milli 300) (milli 400) 50 2]))
    as Hresp by (vm_compute; reflexivity).
  assert (Samples.stat_row (milli 280) (milli 300) (milli 400) 50 2
            !! "obp"%string = Some (milli 300)) as Hob
    by (vm_compute; reflexivity).
  assert (Samples.stat_row (milli 280) (milli 300) (milli 400) 50 2
            !! "slg"%string = Some (milli 400)) as Hsl
    by (vm_compute; reflexivity).
  exact (proj1 (ops_is_recomputed Samples.breaking_vs_left 660271 2024)
           (Samples.on "CU") r _ [] (milli 300) (milli 400) Hr Hresp Hob Hsl).
Defined.

(** ** Fetchers: absent columns *)





(** ** Group rollups *)





Lemma group_dims_elem group_name group_pitches hand :
  (group_name, group_pitches) ∈ pitch_groups → hand ∈ pitcher_hands →
  (group_name, group_pitches, hand) ∈ all_group_dims.
Proof.
  intros Hg Hh. unfold all_group_dims. apply list_elem_of_bind.
  exists (group_name, group_pitches). split; [|exact Hg].
  apply list_elem_of_fmap. eauto.
Qed.

Section rollups.
Variable w : world.
Variables player_id season : Z.

Local Abbreviation report := (get_detailed_pitch_splits w player_id season).

Lemma report_hand_data_five group_pitches hand :
  Forall (λ x, 5 ≤ atBats x)
    (group_hand_data (splits report) group_pitches hand).
Proof.
  apply Forall_forall. intros x Hx.
  apply group_hand_data_elem in Hx as (pitch & _ & Hget).
  apply dict_get_Some_elem in Hget. by eapply report_at_least_five.
Qed.

(** A group and hand with a stored constituent has its rollup in the
    report, built from all constituents. *)
Lemma report_rollup group_name group_pitches hand :
  (group_name, group_pitches) ∈ pitch_groups → hand ∈ pitcher_hands →
  group_hand_data (splits report) group_pitches hand ≠ [] →
  ∃ v, dict_get (split_key (ByGroup group_name hand)) (splits report) = Some v ∧
       avg v = Num (py_round3
                      (Qc_sum (numeric_avgs
                                 (group_hand_data (splits report) group_pitches hand)) /
                       Qc_of_Z (Z.of_nat
                                  (length (group_hand_data (splits report)
                                             group_pitches hand))))%Qc) ∧
       atBats v =
         Z_sum (atBats <$> group_hand_data (splits report) group_pitches hand) ∧
       homeRuns v =
         Z_sum (homeRuns <$> group_hand_data (splits report) group_pitches hand).
Proof.
  intros Hg Hh Hne.
  pose proof (report_group_lookup w player_id season
                (group_name, group_pitches, hand)
                (group_dims_elem _ _ _ Hg Hh)) as Hget.
  unfold group_key in Hget. cbn [fst snd] in Hget.
  destruct (group_rollup_is_Some w group_name hand
              (group_hand_data (splits report) group_pitches hand) Hne)
    as [v Hv].
  { assert (5 ≤ Z_sum (atBats <$> group_hand_data (splits report)
                                    group_pitches hand)); [|lia].
    apply Z_sum_lower_bound.
    - apply Forall_fmap. apply report_hand_data_five.
    - by destruct (group_hand_data _ _ _). }
  exists v. split; [by rewrite Hget|].
  by apply group_rollup_Some in Hv as (_ & ? & ? & ?).
Qed.

End rollups.










(** ** Career files *)

(** After the update the season's entry is the basic splits it was given,
    whatever the file held before. *)
Lemma update_replaces_entry w player_name player_id season all_data fs basic :
  basic_splits all_data = Some basic →
  season_entry (update_career_files w player_name player_id season all_data fs)
    player_name season = Some basic.
Proof.
  intros Hb. unfold season_entry, update_career_files. cbn [career_files].
  rewrite Hb, lookup_insert_eq. cbn [career_seasons mbind option_bind].
  apply lookup_insert_eq.
Qed.

(** Other seasons of the file stay as they were. *)
Lemma update_keeps_other_seasons w player_name player_id season all_data fs other :
  other ≠ season →
  season_entry (update_career_files w player_name player_id season all_data fs)
    player_name other = season_entry fs player_name other.
Proof.
  intros Hne. unfold season_entry, update_career_files. cbn [career_files].
  destruct (basic_splits all_data) as [basic|]; [|reflexivity].
  rewrite lookup_insert_eq. cbn [career_seasons mbind option_bind].
  rewrite lookup_insert_ne by done. unfold load_career.
  destruct (career_files fs !! career_filename player_name) as [[|doc]|];
    cbn [career_seasons default from_option id mbind option_bind].
  - by rewrite lookup_empty.
  - destruct (career_seasons doc); cbn [default from_option id mbind option_bind];
      [reflexivity | by rewrite lookup_empty].
  - by rewrite lookup_empty.
Qed.

Lemma savant_fetch_ext w1 w2 player_id season parameter_name parameter_value :
  (∀ q, http_get w2 q = http_get w1 q) →
  (∀ site, now w2 site = now w1 site) →
  get_baseball_savant_data w2 player_id season parameter_name parameter_value =
  get_baseball_savant_data w1 player_id season parameter_name parameter_value.
Proof.
  intros Hhttp Hnow. unfold get_baseball_savant_data.
  by rewrite Hhttp, Hnow.
Qed.

Lemma collect_basic_ext w1 w2 player_id season :
  (∀ q, http_get w2 q = http_get w1 q) →
  (∀ site, now w2 site = now w1 site) →
  collect_basic_splits w2 player_id season =
  collect_basic_splits w1 player_id season.
Proof.
  intros Hhttp Hnow. unfold collect_basic_splits. cbn [foldl fst snd].
  by rewrite !(savant_fetch_ext w1 w2).
Qed.

(** What a run leaves as the season's entry. *)
Lemma run_entry w player_name season fs :
  season_entry (get_complete_player_data w player_name season fs).2
    player_name season =
  match get_player_id w player_name with
  | Some player_id =>
    if decide (player_id = 0) then season_entry fs player_name season
    else Some (collect_basic_splits w player_id season)
  | None => season_entry fs player_name season
  end.
Proof.
  unfold get_complete_player_data.
  destruct (get_player_id w player_name) as [player_id|]; [|reflexivity].
  case_decide; [reflexivity|]. cbn [snd].
  by apply update_replaces_entry.
Qed.

(** C9 fails as stated: the records carry the time they were fetched, so
    a second run five minutes later, with the same remote answers, leaves
    an entry that differs from the one of the first run. *)
Lemma second_run_changes_entry :
  (∀ q, http_get Samples.second_run q = http_get Samples.first_run q) ∧
  ∃ e1 e2,
    season_entry
      (get_complete_player_data Samples.first_run "Shohei Ohtani" 2024
         Samples.empty_disk).2 "Shohei Ohtani" 2024 = Some e1 ∧
    season_entry
      (get_complete_player_data Samples.second_run "Shohei Ohtani" 2024
         (get_complete_player_data Samples.first_run "Shohei Ohtani" 2024
            Samples.empty_disk).2).2 "Shohei Ohtani" 2024 = Some e2 ∧
    lastUpdated <$> dict_get "vs RHP" e1 = Some Samples.noon ∧
    lastUpdated <$> dict_get "vs RHP" e2 = Some Samples.later ∧
    e1 ≠ e2.
Proof.
  split; [reflexivity|].
  eexists. eexists.
  split; [rewrite run_entry; vm_compute; reflexivity|].
  split; [rewrite run_entry; vm_compute; reflexivity|].
  split; [vm_compute; reflexivity|].
  split; [vm_compute; reflexivity|].
  intros H. apply (f_equal (λ e, lastUpdated <$> dict_get "vs RHP" e)) in H.
  vm_compute in H. discriminate H.
Qed.

(** C9, amended: [update_career_files] replaces the entry under the season
    key by the basic splits it is given; so after two runs with the same
    remote answers the entry is the one a single run at the second run's
    clock readings leaves, and it equals the entry after the first run
    when the two runs read the same times. *)
Theorem season_entry_is_replaced (w1 w2 : world) (player_name : string)
    (season : Z) (fs : disk) :
  (∀ name, lookup_player w2 name = lookup_player w1 name) →
  (∀ q, http_get w2 q = http_get w1 q) →
  (∀ player_id all_data basic fs',
     basic_splits all_data = Some basic →
     season_entry
       (update_career_files w1 player_name player_id season all_data fs')
       player_name season = Some basic) ∧
  season_entry
    (get_complete_player_data w2 player_name season
       (get_complete_player_data w1 player_name season fs).2).2
    player_name season =
  season_entry (get_complete_player_data w2 player_name season fs).2
    player_name season ∧
  ((∀ site, now w2 site = now w1 site) →
   season_entry
     (get_complete_player_data w2 player_name season
        (get_complete_player_data w1 player_name season fs).2).2
     player_name season =
   season_entry (get_complete_player_data w1 player_name season fs).2
     player_name season).
Proof.
  intros Hlook Hhttp.
  split; [intros; by apply update_replaces_entry|].
  rewrite !run_entry.
  assert (get_player_id w2 player_name = get_player_id w1 player_name) as ->
    by (unfold get_player_id; by rewrite Hlook).
  destruct (get_player_id w1 player_name) as [player_id|]; [|done].
  case_decide; [done|]. split; [reflexivity|].
  intros Hnow. f_equal. by apply collect_basic_ext.
Qed.

Lemma season_entry_is_replaced_witness :
  ((∀ name, lookup_player Samples.second_run name
            = lookup_player Samples.first_run name) ∧
   (∀ q, http_get Samples.second_run q = http_get Samples.first_run q)) ∧
  season_entry
    (get_complete_player_data Samples.second_run "Shohei Ohtani" 2024
       (get_complete_player_data Samples.first_run "Shohei Ohtani" 2024
          Samples.empty_disk).2).2 "Shohei Ohtani" 2024 =
  season_entry
    (get_complete_player_data Samples.second_run "Shohei Ohtani" 2024
       Samples.empty_disk).2 "Shohei Ohtani" 2024.
Proof.
  assert (∀ name, lookup_player Samples.second_run name
                  = lookup_player Samples.first_run name) as Hlook
    by (intros; reflexivity).
  assert (∀ q, http_get Samples.second_run q = http_get Samples.first_run q)
    as Hhttp by (intros; reflexivity).
  split; [auto|].
  exact (proj1 (proj2 (season_entry_is_replaced Samples.first_run
                          Samples.second_run "Shohei Ohtani" 2024
                          Samples.empty_disk Hlook Hhttp))).
Defined.

(** * Further properties of the code *)

(** ** The detailed report as a dictionary *)

Lemma sublist_bind {A B} (f g : A → list B) (l : list A) :
  (∀ x, f x `sublist_of` g x) → l ≫= f `sublist_of` l ≫= g.
Proof.
  intros Hfg. induction l as [|x l IH]; [reflexivity|].
  rewrite !bind_cons. by apply sublist_app.
Qed.

Lemma all_pitch_dims_NoDup : NoDup all_pitch_dims.
Proof. exact (NoDup_fmap_1 split_key _ pitch_keys_NoDup). Qed.

Lemma all_pitch_dims_length : length all_pitch_dims = 105%nat.
Proof. vm_compute. reflexivity. Qed.

Lemma dict_keys_app_sublist {V} (d1 d2 : dict V) (k1 k2 : list string) :
  dict_keys d1 `sublist_of` k1 → dict_keys d2 `sublist_of` k2 →
  dict_keys (d1 ++ d2) `sublist_of` k1 ++ k2.
Proof.
  intros H1 H2. unfold dict_keys in *. rewrite fmap_app. by apply sublist_app.
Qed.

Lemma report_keys_sublist w player_id season :
  dict_keys (splits (get_detailed_pitch_splits w player_id season))
    `sublist_of` all_keys.
Proof.
  rewrite report_closed. unfold all_keys. apply dict_keys_app_sublist.
  - apply first_loop_keys.
  - apply (omap_keys_sublist group_key
             (λ gh, group_rollup w gh.1.1 gh.2
                      (group_hand_data (pitch_phase w player_id season)
                         gh.1.2 gh.2))).
Qed.

(** X1: the keys of the report are pairwise distinct and stand in the
    order of the loops: pitch keys in visiting order, then group keys. *)
Theorem report_keys_ordered (w : world) (player_id season : Z) :
  NoDup (dict_keys (splits (get_detailed_pitch_splits w player_id season))) ∧
  dict_keys (splits (get_detailed_pitch_splits w player_id season))
    `sublist_of` all_keys.
Proof.
  split; [|apply report_keys_sublist].
  eapply sublist_NoDup; [exact all_keys_NoDup | apply report_keys_sublist].
Qed.

(** X2: under a pitch key the report holds the very record the fetch of
    that dimension returned, and it holds it exactly when that record and
    the records of the shallower dimensions have five at-bats or more. *)
Theorem pitch_entry_is_its_fetch (w : world) (player_id season : Z)
    (pitch hand location : string) :
  pitch ∈ pitch_types → hand ∈ pitcher_hands → location ∈ locations →
  dict_get (split_key (ByPitch pitch))
    (splits (get_detailed_pitch_splits w player_id season))
    = enough 5 (fetch_dim w player_id season (ByPitch pitch)) ∧
  dict_get (split_key (ByHand pitch hand))
    (splits (get_detailed_pitch_splits w player_id season))
    = (_ ← enough 5 (fetch_dim w player_id season (ByPitch pitch));
       enough 5 (fetch_dim w player_id season (ByHand pitch hand))) ∧
  dict_get (split_key (ByLoc pitch hand location))
    (splits (get_detailed_pitch_splits w player_id season))
    = (_ ← enough 5 (fetch_dim w player_id season (ByPitch pitch));
       _ ← enough 5 (fetch_dim w player_id season (ByHand pitch hand));
       enough 5 (fetch_dim w player_id season (ByLoc pitch hand location))).
Proof.
  intros Hp Hh Hl.
  destruct (pitch_dims_elem pitch hand location Hp Hh Hl) as (H1 & H2 & H3).
  rewrite !report_pitch_lookup by assumption. done.
Qed.

Lemma pitch_entry_is_its_fetch_witness :
  ∃ v, dict_get (split_key (ByHand "CU" "L"))
         (splits (get_detailed_pitch_splits Samples.breaking_vs_left 660271 2024))
       = Some v ∧
       fetch_dim Samples.breaking_vs_left 660271 2024 (ByHand "CU" "L") = Some v.
Proof.
  assert ("CU"%string ∈ pitch_types) as Hp
    by (refine (bool_decide_unpack _ _); vm_compute; exact I).
  assert ("L"%string ∈ pitcher_hands) as Hh
    by (refine (bool_decide_unpack _ _); vm_compute; exact I).
  assert ("Home"%string ∈ locations) as Hl
    by (refine (bool_decide_unpack _ _); vm_compute; exact I).
  destruct (pitch_entry_is_its_fetch Samples.breaking_vs_left 660271 2024
              "CU" "L" "Home" Hp Hh Hl) as (_ & H2 & _).
  destruct (fetch_dim Samples.breaking_vs_left 660271 2024 (ByHand "CU" "L"))
    as [v|] eqn:Hv; [|vm_compute in Hv; discriminate Hv].
  exists v. split; [|reflexivity].
  rewrite H2. vm_compute in Hv. injection Hv as <-. vm_compute. reflexivity.
Defined.

(** X3: a group rollup is in the report exactly when the report has the
    pitch-and-handedness record of at least one pitch type of the group. *)
Theorem rollup_iff_constituent (w : world) (player_id season : Z)
    (group_name : string) (group_pitches : list string) (hand : string) :
  (group_name, group_pitches) ∈ pitch_groups → hand ∈ pitcher_hands →
  is_Some (dict_get (split_key (ByGroup group_name hand))
             (splits (get_detailed_pitch_splits w player_id season))) ↔
  ∃ pitch, pitch ∈ group_pitches ∧
           is_Some (dict_get (split_key (ByHand pitch hand))
                      (splits (get_detailed_pitch_splits w player_id season))).
Proof.
  intros Hg Hh. split.
  - intros [v Hv].
    pose proof (report_group_lookup w player_id season
                  (group_name, group_pitches, hand)
                  (group_dims_elem _ _ _ Hg Hh)) as Hget.
    unfold group_key in Hget. cbn [fst snd] in Hget. rewrite Hv in Hget.
    symmetry in Hget. apply group_rollup_Some in Hget as (Hne & _).
    destruct (group_hand_data _ group_pitches hand) as [|x l] eqn:Hd; [done|].
    assert (x ∈ group_hand_data
                  (splits (get_detailed_pitch_splits w player_id season))
                  group_pitches hand) as Hx
      by (rewrite Hd; apply list_elem_of_here).
    apply group_hand_data_elem in Hx as (pitch & Hin & Hx). eauto.
  - intros (pitch & Hin & [x Hx]).
    destruct (report_rollup w player_id season group_name group_pitches hand
                Hg Hh) as (v & Hv & _); [|eauto].
    intros Hnil.
    assert (x ∈ group_hand_data
                  (splits (get_detailed_pitch_splits w player_id season))
                  group_pitches hand) as Hmem.
    { unfold group_hand_data. apply list_elem_of_omap. eauto. }
    rewrite Hnil in Hmem. by apply elem_of_nil in Hmem.
Qed.

Lemma rollup_iff_constituent_witness :
  is_Some (dict_get (split_key (ByGroup "Breaking" "L"))
             (splits (get_detailed_pitch_splits
                        Samples.breaking_vs_left 660271 2024))).
Proof.
  assert (("Breaking", ["CU"; "KC"; "CS"; "SL"; "ST"; "SV"; "KN"])%string
          ∈ pitch_groups) as Hg
    by (refine (bool_decide_unpack _ _); vm_compute; exact I).
  assert ("L"%string ∈ pitcher_hands) as Hh
    by (refine (bool_decide_unpack _ _); vm_compute; exact I).
  apply (proj2 (rollup_iff_constituent Samples.breaking_vs_left 660271 2024
                  "Breaking" _ "L" Hg Hh)).
  exists "CU"%string. split.
  - refine (bool_decide_unpack _ _). vm_compute. exact I.
  - eexists. vm_compute. reflexivity.
Defined.

(** ** Fetchers *)

(** X4: [get_baseball_savant_data] returns nothing for a parameter name
    other than [pitcher_throws] and [home_road], whatever the service
    answers: [split_name] is then unbound when the result is reported, and
    the handler turns the error into [None]. The pipeline asks for the
    season totals under the name [overall], so the basic splits never have
    an ["overall"] entry and the summary never has an overall line. *)
Theorem overall_is_never_collected (w : world) (player_id season : Z) :
  (∀ parameter_name parameter_value,
     parameter_name ≠ "pitcher_throws"%string →
     parameter_name ≠ "home_road"%string →
     get_baseball_savant_data w player_id season parameter_name parameter_value
     = None) ∧
  dict_get "overall" (collect_basic_splits w player_id season) = None ∧
  (∀ player_name detailed sm,
     dict_get "overall"
       (summary_basic_splits
          (generate_performance_summary player_name player_id season
             (mk_all_data (Some (collect_basic_splits w player_id season))
                          detailed sm))) = None).
Proof.
  assert (∀ parameter_name parameter_value,
            parameter_name ≠ "pitcher_throws"%string →
            parameter_name ≠ "home_road"%string →
            get_baseball_savant_data w player_id season
              parameter_name parameter_value = None) as Hnone.
  { intros parameter_name parameter_value H1 H2.
    unfold get_baseball_savant_data.
    rewrite !(decide_False (P := parameter_name = _)) by assumption.
    destruct (http_get w _) as [|status body]; [reflexivity|].
    case_decide; [|reflexivity]. destruct body as [|rows]; [reflexivity|].
    destruct (first_row rows) as [data|]; [|reflexivity].
    destruct (missing_columns data); [|reflexivity].
    destruct (data !! "ba"%string); cbn [mbind option_bind]; [|reflexivity].
    destruct (data !! "slg"%string); cbn [mbind option_bind]; [|reflexivity].
    destruct (data !! "obp"%string); cbn [mbind option_bind]; [|reflexivity].
    destruct (data !! "hrs"%string); cbn [mbind option_bind]; [|reflexivity].
    destruct (data !! "singles"%string); cbn [mbind option_bind]; [|reflexivity].
    destruct (data !! "doubles"%string); cbn [mbind option_bind]; [|reflexivity].
    destruct (data !! "triples"%string); cbn [mbind option_bind]; [|reflexivity].
    destruct (data !! "so"%string); cbn [mbind option_bind]; [|reflexivity].
    destruct (data !! "bb"%string); cbn [mbind option_bind]; [|reflexivity].
    destruct (data !! "abs"%string); cbn [mbind option_bind]; [|reflexivity].
    destruct (data !! "pa"%string); cbn [mbind option_bind]; [|reflexivity].
    reflexivity. }
  assert (dict_get "overall" (collect_basic_splits w player_id season) = None)
    as Hbasic.
  { destruct (collect_basic_lookup w player_id season) as (-> & _).
    by apply Hnone. }
  split; [exact Hnone|]. split; [exact Hbasic|].
  intros player_name detailed sm.
  unfold generate_performance_summary, summarize_basic.
  cbn [summary_basic_splits basic_splits from_option foldl].
  rewrite Hbasic.
  destruct (dict_get "vs LHP" _); destruct (dict_get "vs RHP" _);
    destruct (dict_get "Home" _); destruct (dict_get "Away" _);
    vm_compute; reflexivity.
Qed.

Lemma overall_is_never_collected_witness :
  (∃ data, http_get Samples.totals_served (basic_query 660271 2024 "overall" "total")
           = Http 200 (CsvFrame [data]) ∧ missing_columns data = []) ∧
  get_baseball_savant_data Samples.totals_served 660271 2024 "overall" "total"
  = None.
Proof.
  split.
  - eexists. split; [vm_compute; reflexivity|]. vm_compute. reflexivity.
  - apply (proj1 (overall_is_never_collected Samples.totals_served 660271 2024));
      discriminate.
Defined.


(** ** The number of remote calls *)

Lemma issued_for_pitch_sublist w player_id season pitch :
  issued_for_pitch w player_id season pitch `sublist_of` dims_of_pitch pitch.
Proof.
  unfold issued_for_pitch, issued_for_hand, dims_of_pitch, dims_of_hand,
    pitcher_hands, locations.
  cbn [mbind list_bind fmap list_fmap app].
  destruct (enough 5 (fetch_dim w player_id season (ByPitch pitch)));
    [|apply sublist_skip, sublist_nil_l].
  apply sublist_skip. cbn [mbind list_bind fmap list_fmap app].
  destruct (enough 5 (fetch_dim w player_id season (ByHand pitch "L")));
    destruct (enough 5 (fetch_dim w player_id season (ByHand pitch "R")));
    cbn [app]; repeat first [apply sublist_skip | apply sublist_cons];
    try reflexivity; apply sublist_nil_l.
Qed.

Lemma issued_for_pitch_head w player_id season pitch :
  [ByPitch pitch] `sublist_of` issued_for_pitch w player_id season pitch.
Proof. unfold issued_for_pitch. apply sublist_skip, sublist_nil_l. Qed.

(** X6: the first loop queries the service for every pitch type once,
    never issues the same query twice, and issues only queries of the
    cross product: between 15 and 105 calls. *)
Theorem fetch_budget (w : world) (player_id season : Z) :
  ByPitch <$> pitch_types `sublist_of` issued_fetches w player_id season ∧
  issued_fetches w player_id season `sublist_of` all_pitch_dims ∧
  NoDup (issued_fetches w player_id season) ∧
  (15 ≤ length (issued_fetches w player_id season) ≤ 105)%nat.
Proof.
  assert (ByPitch <$> pitch_types
            `sublist_of` issued_fetches w player_id season) as Hlo.
  { rewrite issued_fetches_closed.
    assert (ByPitch <$> pitch_types = pitch_types ≫= λ p, [ByPitch p]) as ->
      by (by induction pitch_types as [|p l IH]; [|cbn; rewrite IH]).
    apply sublist_bind. intros p. apply issued_for_pitch_head. }
  assert (issued_fetches w player_id season `sublist_of` all_pitch_dims) as Hhi.
  { rewrite issued_fetches_closed. unfold all_pitch_dims.
    apply sublist_bind. intros p. apply issued_for_pitch_sublist. }
  split; [exact Hlo|]. split; [exact Hhi|]. split.
  - eapply sublist_NoDup; [exact all_pitch_dims_NoDup | exact Hhi].
  - apply sublist_length in Hlo. apply sublist_length in Hhi.
    rewrite all_pitch_dims_length in Hhi.
    rewrite length_fmap in Hlo.
    assert (length pitch_types = 15%nat) as Hlen by reflexivity.
    lia.
Qed.

(** ** The notable splits as a ranking *)

Section ranking.
Context {A : Type} (key : A → Qc).




End ranking.



(** ** The basic lines of the summary *)

Lemma summarize_loop_lookup (basic : dict SplitRecord) (key : string) keys acc :
  dict_get key
    (foldl (λ acc key,
              match dict_get key basic with
              | Some data => dict_set acc key (basic_line data)
              | None => acc
              end) acc keys) =
  if decide (key ∈ keys)
  then match dict_get key basic with
       | Some data => Some (basic_line data)
       | None => dict_get key acc
       end
  else dict_get key acc.
Proof.
  revert acc. induction keys as [|k keys IH]; intros acc.
  - cbn [foldl]. rewrite decide_False by apply not_elem_of_nil. reflexivity.
  - cbn [foldl]. rewrite IH.
    assert (dict_get key
              match dict_get k basic with
              | Some data => dict_set acc k (basic_line data)
              | None => acc
              end =
            if decide (key = k)
            then match dict_get key basic with
                 | Some data => Some (basic_line data)
                 | None => dict_get key acc
                 end
            else dict_get key acc) as ->.
    { destruct (decide (key = k)) as [->|Hne].
      - destruct (dict_get k basic); [|reflexivity].
        by rewrite dict_get_set, decide_True.
      - destruct (dict_get k basic); [|reflexivity].
        by rewrite dict_get_set, decide_False. }
    destruct (decide (key ∈ keys)) as [Hin|Hnin].
    + rewrite (decide_True (P := key ∈ k :: keys))
        by (by apply list_elem_of_further).
      destruct (dict_get key basic); [reflexivity|]. by case_decide.
    + destruct (decide (key = k)) as [->|Hne].
      * by rewrite (decide_True (P := k ∈ k :: keys))
          by apply list_elem_of_here.
      * rewrite (decide_False (P := key ∈ k :: keys)); [reflexivity|].
        rewrite not_elem_of_cons. auto.
Qed.

(** X9: the summary copies a basic split exactly for the five names it
    knows, taking the average, OPS, home runs and at-bats of the record;
    any other entry of the basic splits is left out. *)
Theorem summary_basic_lines (basic : dict SplitRecord) (key : string) :
  dict_get key (summarize_basic basic) =
  if decide (key ∈ ["overall"; "vs LHP"; "vs RHP"; "Home"; "Away"]%string)
  then basic_line <$> dict_get key basic
  else None.
Proof.
  unfold summarize_basic. rewrite summarize_loop_lookup.
  case_decide; [|reflexivity]. by destruct (dict_get key basic).
Qed.

(** ** Career files *)

(** X10: the career update changes one season of one file: other seasons
    of the player's file and other players' files stay as they were, and
    without basic splits no career file is changed at all. *)
Theorem career_update_is_local (w : world) (player_name : string)
    (player_id season : Z) (all_data : AllData) (fs : disk) :
  (∀ other, other ≠ season →
     season_entry (update_career_files w player_name player_id season all_data fs)
       player_name other = season_entry fs player_name other) ∧
  (∀ file, file ≠ career_filename player_name →
     career_files (update_career_files w player_name player_id season all_data fs)
       !! file = career_files fs !! file) ∧
  (basic_splits all_data = None →
   career_files (update_career_files w player_name player_id season all_data fs)
   = career_files fs).
Proof.
  split; [|split].
  - intros other Hne. by apply update_keeps_other_seasons.
  - intros file Hne. unfold update_career_files. cbn [career_files].
    destruct (basic_splits all_data); [|reflexivity].
    by rewrite lookup_insert_ne.
  - intros Hnone. unfold update_career_files. cbn [career_files].
    by rewrite Hnone.
Qed.

(** X11: the player named in a career file is the one of the first
    update: a readable file that names a player keeps that name and
    identifier, and only a missing file, an unreadable one or one without a
    player gets the current ones. An unreadable file is started afresh:
    after the update it holds the current season and no other. *)
Theorem career_player_is_kept (w : world) (player_name : string)
    (player_id season : Z) (all_data : AllData) (fs : disk)
    (basic : dict SplitRecord) :
  basic_splits all_data = Some basic →
  ∃ doc,
    career_files (update_career_files w player_name player_id season all_data fs)
      !! career_filename player_name = Some (Json doc) ∧
    career_lastUpdated doc = Some (now w AtCareer) ∧
    career_player doc =
      Some match career_files fs !! career_filename player_name with
           | Some (Json old) => default (player_name, player_id) (career_player old)
           | _ => (player_name, player_id)
           end ∧
    (career_files fs !! career_filename player_name = Some Garbled →
     career_seasons doc = Some {[season := basic]}).
Proof.
  intros Hb. unfold update_career_files. cbn [career_files]. rewrite Hb.
  eexists. split; [apply lookup_insert_eq|].
  cbn [career_lastUpdated career_player career_seasons load_career].
  split; [reflexivity|]. split.
  - by destruct (career_files fs !! career_filename player_name) as [[|old]|].
  - intros ->. cbn [career_seasons default from_option id]. reflexivity.
Qed.

Lemma career_player_is_kept_witness :
  ∃ doc,
    career_files
      (update_career_files Samples.first_run "Shohei Ohtani" 660271 2024
         (mk_all_data (Some []) None None) Samples.empty_disk)
      !! career_filename "Shohei Ohtani" = Some (Json doc) ∧
    career_player doc = Some ("Shohei Ohtani"%string, 660271).
Proof.
  destruct (career_player_is_kept Samples.first_run "Shohei Ohtani" 660271 2024
              (mk_all_data (Some []) None None) Samples.empty_disk []
              eq_refl) as (doc & Hdoc & _ & Hplayer & _).
  exists doc. split; [exact Hdoc|]. rewrite Hplayer. reflexivity.
Defined.

(** X12: the all-players file after the update: the player has an entry,
    created when there was none; with a summary, that entry holds the
    summary under the season and the other seasons it had; every other
    player's entry is untouched. *)
Theorem all_players_update (w : world) (player_name : string)
    (player_id season : Z) (all_data : AllData) (fs : disk) :
  ∃ players entry,
    all_players_file
      (update_career_files w player_name player_id season all_data fs)
      = Some (Json players) ∧
    players !! player_name = Some entry ∧
    (∀ sm, summary all_data = Some sm →
       doc_seasons entry !! season = Some sm ∧
       doc_lastUpdated entry = Some (now w AtAllPlayers)) ∧
    (∀ old other,
       all_players_file fs = Some (Json old) →
       (other ≠ player_name → players !! other = old !! other) ∧
       (∀ old_entry other_season,
          old !! player_name = Some old_entry → other_season ≠ season →
          doc_seasons entry !! other_season
          = doc_seasons old_entry !! other_season)).
Proof.
  unfold update_career_files. cbn [all_players_file].
  eexists. eexists. split; [reflexivity|].
  split; [apply lookup_insert_eq|]. split.
  - intros sm ->. cbn [doc_seasons doc_lastUpdated].
    split; [apply lookup_insert_eq | reflexivity].
  - intros old other ->. split.
    + intros Hne. by rewrite lookup_insert_ne.
    + intros old_entry other_season -> Hne. cbn [default from_option id].
      destruct (summary all_data); cbn [doc_seasons]; [|reflexivity].
      by rewrite lookup_insert_ne.
Qed.

(** ** The pipeline *)


(** ** The pitch type stage *)

(** A loop that stores what it finds stores the found pairs in order. *)
Lemma foldl_store {A V} (key : A → string) (f : A → option V) (l : list A)
    (acc : dict V) :
  foldl (λ acc x, match f x with
                  | Some v => dict_set acc (key x) v
                  | None => acc
                  end) acc l
  = set_all acc (omap (λ x, (λ v, (key x, v)) <$> f x) l).
Proof.
  revert acc. induction l as [|x l IH]; intros acc; [reflexivity|].
  cbn [foldl omap list_omap]. rewrite IH.
  destruct (f x) as [v|]; reflexivity.
Qed.

Lemma foldl_pointwise {A B} (f g : B → A → B) (l : list A) (acc : B) :
  (∀ acc x, f acc x = g acc x) → foldl f acc l = foldl g acc l.
Proof.
  intros Hfg. revert acc. induction l as [|x l IH]; intros acc; [reflexivity|].
  cbn [foldl]. by rewrite Hfg, IH.
Qed.

Lemma pitch_data_keys_NoDup : NoDup pitch_data_keys.
Proof. apply (bool_decide_unpack _). vm_compute. reflexivity. Qed.

Lemma pitch_data_closed w player_id season :
  get_pitch_type_data w player_id season =
  omap (λ e : string * string,
          (λ v, (e.1, v)) <$> enough 5 (fetch_pitch_type w player_id season e.1))
       pitch_type_names
  ++ omap (λ g : string * list string,
             (λ v, (("GROUP_" +:+ g.1)%string, v))
               <$> group_fetch w player_id season g)
          pitch_groups_all.
Proof.
  unfold get_pitch_type_data.
  rewrite (foldl_pointwise (pitch_group_step w player_id season)
             (λ acc g, match group_fetch w player_id season g with
                       | Some v => dict_set acc ("GROUP_" +:+ g.1)%string v
                       | None => acc
                       end)).
  2:{ intros acc g. unfold pitch_group_step, group_fetch.
      by destruct (decide (pitch_code_list g.2 = ""%string)). }
  rewrite (foldl_store (λ g : string * list string, ("GROUP_" +:+ g.1)%string)).
  unfold pitch_type_step.
  rewrite (foldl_store (λ e : string * string, e.1)
             (λ e, enough 5 (fetch_pitch_type w player_id season e.1))).
  rewrite <- set_all_app. apply (foldl_dict_set_fresh _ []).
  rewrite app_nil_l. eapply sublist_NoDup; [apply pitch_data_keys_NoDup|].
  unfold dict_keys. rewrite fmap_app. apply sublist_app.
  - apply (omap_keys_sublist (λ e : string * string, e.1)).
  - apply (omap_keys_sublist (λ g : string * list string, ("GROUP_" +:+ g.1)%string)).
Qed.

Lemma pitch_groups_have_codes :
  Forall (λ g : string * list string, pitch_code_list g.2 ≠ ""%string)
         pitch_groups_all.
Proof. apply (bool_decide_unpack _). vm_compute. reflexivity. Qed.

Lemma pitch_data_keys_disjoint k :
  k ∈ pitch_type_names.*1 →
  k ∈ (λ g : string * list string, ("GROUP_" +:+ g.1)%string) <$> pitch_groups_all →
  False.
Proof.
  pose proof pitch_data_keys_NoDup as Hnd. unfold pitch_data_keys in Hnd.
  apply NoDup_app in Hnd as (_ & Hdis & _). exact (Hdis k).
Qed.

Lemma pitch_data_code w player_id season code :
  code ∈ pitch_type_names.*1 →
  dict_get code (get_pitch_type_data w player_id season)
  = enough 5 (fetch_pitch_type w player_id season code).
Proof.
  intros Hin. rewrite pitch_data_closed, dict_get_app.
  pose proof pitch_data_keys_NoDup as Hnd. unfold pitch_data_keys in Hnd.
  apply NoDup_app in Hnd as (Hnd & _ & _).
  pose proof Hin as Hin'.
  apply list_elem_of_fmap in Hin' as (e & -> & He).
  rewrite (dict_get_omap (λ e : string * string, e.1)
             (λ e, enough 5 (fetch_pitch_type w player_id season e.1))
             pitch_type_names e Hnd He).
  destruct (enough 5 (fetch_pitch_type w player_id season e.1)); [reflexivity|].
  apply (dict_get_omap_None (λ g : string * list string, ("GROUP_" +:+ g.1)%string)).
  intros Hg. exact (pitch_data_keys_disjoint _ Hin Hg).
Qed.

Lemma pitch_data_group w player_id season group :
  group ∈ pitch_groups_all.*1 →
  dict_get ("GROUP_" +:+ group)%string (get_pitch_type_data w player_id season)
  = enough 10 (fetch_pitch_type w player_id season group).
Proof.
  intros Hin. rewrite pitch_data_closed, dict_get_app.
  pose proof pitch_data_keys_NoDup as Hnd. unfold pitch_data_keys in Hnd.
  apply NoDup_app in Hnd as (_ & _ & Hnd).
  apply list_elem_of_fmap in Hin as (g & -> & Hg).
  rewrite (dict_get_omap_None (λ e : string * string, e.1)).
  2:{ intros Hc. apply (pitch_data_keys_disjoint _ Hc).
      apply list_elem_of_fmap. by exists g. }
  rewrite (dict_get_omap (λ g : string * list string, ("GROUP_" +:+ g.1)%string)
             (group_fetch w player_id season) pitch_groups_all g Hnd Hg).
  unfold group_fetch. rewrite decide_False; [reflexivity|].
  pose proof pitch_groups_have_codes as Hall.
  rewrite Forall_forall in Hall. by apply Hall.
Qed.

Lemma pitch_data_keys_sublist w player_id season :
  dict_keys (get_pitch_type_data w player_id season) `sublist_of` pitch_data_keys.
Proof.
  rewrite pitch_data_closed. unfold dict_keys, pitch_data_keys.
  rewrite fmap_app. apply sublist_app.
  - apply (omap_keys_sublist (λ e : string * string, e.1)).
  - apply (omap_keys_sublist (λ g : string * list string, ("GROUP_" +:+ g.1)%string)).
Qed.

(** X14: the pitch type stage, [get_pitch_type_data], holds under each of
    the eighteen pitch codes the record fetched for that code when it has
    at least 5 at-bats, and under ["GROUP_" + name] of each of the four
    groups the record fetched with the group's name as the pitch type (not
    with the codes of its members) when it has at least 10 at-bats; it
    holds nothing else, and its keys follow the order of the two loops. *)
Theorem pitch_data_lookup (w : world) (player_id season : Z) :
  (∀ code, code ∈ pitch_type_names.*1 →
     dict_get code (get_pitch_type_data w player_id season)
     = enough 5 (get_combined_split_data w player_id season
                   (mk_params (Some code) None None))) ∧
  (∀ group, group ∈ pitch_groups_all.*1 →
     dict_get ("GROUP_" +:+ group)%string (get_pitch_type_data w player_id season)
     = enough 10 (get_combined_split_data w player_id season
                    (mk_params (Some group) None None))) ∧
  NoDup (dict_keys (get_pitch_type_data w player_id season)) ∧
  dict_keys (get_pitch_type_data w player_id season) `sublist_of` pitch_data_keys.
Proof.
  split; [intros code; apply pitch_data_code|].
  split; [intros group; apply pitch_data_group|].
  split; [|apply pitch_data_keys_sublist].
  eapply sublist_NoDup; [apply pitch_data_keys_NoDup | apply pitch_data_keys_sublist].
Qed.

(** X15: every record the pitch type stage keeps has at least 5 at-bats,
    and at least 10 when it stands under a [GROUP_] key. *)
Theorem pitch_data_thresholds (w : world) (player_id season : Z)
    (key : string) (data : SplitRecord) :
  dict_get key (get_pitch_type_data w player_id season) = Some data →
  5 ≤ atBats data ∧ (starts_with "GROUP_" key = true → 10 ≤ atBats data).
Proof.
  intros Hget.
  assert (key ∈ pitch_data_keys) as Hkey.
  { eapply elem_of_sublist; [|apply pitch_data_keys_sublist].
    destruct (decide (key ∈ dict_keys (get_pitch_type_data w player_id season)))
      as [Hin|Hnot]; [exact Hin|].
    apply dict_get_None_keys in Hnot. congruence. }
  unfold pitch_data_keys in Hkey. apply elem_of_app in Hkey as [Hc|Hg].
  - rewrite (pitch_data_code _ _ _ _ Hc) in Hget.
    apply enough_Some in Hget as [_ Hab]. split; [exact Hab|].
    intros Hpre. exfalso. revert Hpre.
    assert (Forall (λ c, starts_with "GROUP_" c = false) pitch_type_names.*1) as Hall.
    { apply (bool_decide_unpack _). vm_compute. reflexivity. }
    rewrite Forall_forall in Hall. rewrite (Hall _ Hc). discriminate.
  - apply list_elem_of_fmap in Hg as (g & -> & Hg).
    rewrite (pitch_data_group w player_id season g.1) in Hget.
    2:{ apply list_elem_of_fmap. by exists g. }
    apply enough_Some in Hget as [_ Hab]. split; [lia | intros _; exact Hab].
Qed.

Lemma pitch_data_thresholds_witness :
  ∃ data,
    dict_get "FF" (get_pitch_type_data Samples.three_fastballs 1 2024) = Some data ∧
    5 ≤ atBats data.
Proof.
  eexists. split; [vm_compute; reflexivity|].
  eapply (pitch_data_thresholds Samples.three_fastballs 1 2024 "FF").
  vm_compute. reflexivity.
Defined.

(** ** The pitch type lines of the summary *)

Lemma omap_omap {A B C} (f : A → option B) (g : B → option C) (l : list A) :
  omap g (omap f l) = omap (λ x, f x ≫= g) l.
Proof.
  induction l as [|x l IH]; [reflexivity|].
  cbn [omap list_omap]. destruct (f x) as [y|]; cbn [mbind option_bind].
  - cbn [omap list_omap]. by rewrite IH.
  - exact IH.
Qed.

Lemma omap_ext_in {A B} (f g : A → option B) (l : list A) :
  (∀ x, x ∈ l → f x = g x) → omap f l = omap g l.
Proof.
  induction l as [|x l IH]; intros Hfg; [reflexivity|].
  cbn [omap list_omap]. rewrite (Hfg x) by apply list_elem_of_here.
  rewrite IH; [reflexivity|]. intros y Hy. apply Hfg. by apply list_elem_of_further.
Qed.

Lemma omap_none {A B} (f : A → option B) (l : list A) :
  (∀ x, x ∈ l → f x = None) → omap f l = [].
Proof.
  intros Hf. rewrite (omap_ext_in f (λ _, None) l Hf). clear Hf.
  induction l as [|x l IH]; [reflexivity | exact IH].
Qed.

Lemma enough_enough n m data :
  n ≤ m → enough n data ≫= (λ v, if decide (m ≤ atBats v) then Some v else None)
          = enough m data.
Proof.
  intros Hnm. unfold enough. destruct data as [v|]; [|reflexivity].
  destruct (decide (m ≤ atBats v)) as [Hm|Hm].
  - rewrite decide_True by lia. cbn [mbind option_bind]. by rewrite decide_True.
  - destruct (decide (n ≤ atBats v)); [|reflexivity].
    cbn [mbind option_bind]. by rewrite decide_False.
Qed.

(** The keys the summary can hold for the pitch type stage, in order. *)
Lemma pitch_line_keys_NoDup : NoDup (pitch_type_names.*1 ++ pitch_groups_all.*1).
Proof. apply (bool_decide_unpack _). vm_compute. reflexivity. Qed.

Lemma codes_not_group_keys :
  Forall (λ e : string * string, starts_with "GROUP_" e.1 = false) pitch_type_names.
Proof. apply (bool_decide_unpack _). vm_compute. reflexivity. Qed.

Lemma group_keys_stripped :
  Forall (λ g : string * list string,
            starts_with "GROUP_" ("GROUP_" +:+ g.1) = true
            ∧ str_remove "GROUP_" ("GROUP_" +:+ g.1) = g.1)
         pitch_groups_all.
Proof. apply (bool_decide_unpack _). vm_compute. reflexivity. Qed.

Lemma foldl_pointwise_from {A B} (f g : B → A → B) (l : list A) (acc acc' : B) :
  (∀ acc x, f acc x = g acc x) → acc = acc' → foldl f acc l = foldl g acc' l.
Proof. intros Hfg ->. by apply foldl_pointwise. Qed.

Lemma foldl_store_pairs {A V} (f : A → option (string * V)) (l : list A)
    (acc : dict V) :
  foldl (λ acc x, match f x with
                  | Some e => dict_set acc e.1 e.2
                  | None => acc
                  end) acc l
  = set_all acc (omap f l).
Proof.
  revert acc. induction l as [|x l IH]; intros acc; [reflexivity|].
  cbn [foldl omap list_omap]. rewrite IH.
  destruct (f x) as [e|]; reflexivity.
Qed.

Lemma pitch_type_summary_store (pitch_data : dict SplitRecord) :
  pitch_type_summary pitch_data =
  set_all [] (omap type_line pitch_data ++ omap group_line pitch_data).
Proof.
  unfold pitch_type_summary. rewrite set_all_app.
  rewrite <- !foldl_store_pairs.
  apply foldl_pointwise_from.
  - intros acc x. unfold group_line.
    destruct (decide (starts_with "GROUP_" x.1 = true ∧ 10 ≤ atBats x.2));
      reflexivity.
  - apply foldl_pointwise. intros acc x. unfold type_line.
    destruct (decide (starts_with "GROUP_" x.1 = false ∧ 10 ≤ atBats x.2));
      reflexivity.
Qed.

(** Find the [omap] over [l] whose function mentions [sel]. *)
Ltac pick_omap sel l tac :=
  match goal with
  | |- context [omap ?f l] =>
    match f with context [sel] => tac f end
  end.

(** The lines of the summary when [pitch_data] comes from the pitch type
    stage. *)
Lemma pipeline_pitch_lines w player_id season :
  pitch_type_summary (get_pitch_type_data w player_id season) =
  omap (λ e : string * string,
          (λ v, (e.1, v)) <$>
          (pitch_line e.1 <$> enough 10 (fetch_pitch_type w player_id season e.1)))
       pitch_type_names
  ++ omap (λ g : string * list string,
             (λ v, (g.1, v)) <$>
             (pitch_line g.1 <$> enough 10 (fetch_pitch_type w player_id season g.1)))
          pitch_groups_all.
Proof.
  rewrite pitch_type_summary_store, pitch_data_closed, !omap_app, !omap_omap.
  pose proof codes_not_group_keys as Hcodes. rewrite Forall_forall in Hcodes.
  pose proof group_keys_stripped as Hgroups. rewrite Forall_forall in Hgroups.
  pose proof pitch_groups_have_codes as Hhave. rewrite Forall_forall in Hhave.
  pick_omap type_line pitch_groups_all
    ltac:(fun f => rewrite (omap_none f pitch_groups_all)).
  2:{ intros g Hg. unfold group_fetch. rewrite decide_False by by apply Hhave.
      destruct (enough 10 (fetch_pitch_type w player_id season g.1)) as [v|];
        [|reflexivity].
      cbn [fmap option_fmap option_map mbind option_bind]. unfold type_line.
      cbn [fst snd]. destruct (Hgroups g Hg) as [-> _].
      rewrite decide_False; [reflexivity | intros [? _]; discriminate]. }
  pick_omap group_line pitch_type_names
    ltac:(fun f => rewrite (omap_none f pitch_type_names)).
  2:{ intros e He.
      destruct (enough 5 (fetch_pitch_type w player_id season e.1)) as [v|];
        [|reflexivity].
      cbn [fmap option_fmap option_map mbind option_bind]. unfold group_line.
      cbn [fst snd]. rewrite (Hcodes e He).
      rewrite decide_False; [reflexivity | intros [? _]; discriminate]. }
  rewrite app_nil_r, app_nil_l.
  pick_omap type_line pitch_type_names ltac:(fun f =>
    rewrite (omap_ext_in f
             (λ e : string * string,
                (λ v, (e.1, v)) <$>
                (pitch_line e.1 <$> enough 10 (fetch_pitch_type w player_id season e.1)))
             pitch_type_names)).
  2:{ intros e He. rewrite <- (enough_enough 5 10) by lia.
      destruct (enough 5 (fetch_pitch_type w player_id season e.1)) as [v|];
        [|reflexivity].
      cbn [fmap option_fmap option_map mbind option_bind]. unfold type_line.
      cbn [fst snd]. rewrite (Hcodes e He).
      destruct (decide (10 ≤ atBats v)).
      - rewrite decide_True by done. reflexivity.
      - rewrite decide_False; [reflexivity | intros [_ ?]; done]. }
  pick_omap group_line pitch_groups_all ltac:(fun f =>
    rewrite (omap_ext_in f
             (λ g : string * list string,
                (λ v, (g.1, v)) <$>
                (pitch_line g.1 <$> enough 10 (fetch_pitch_type w player_id season g.1)))
             pitch_groups_all)).
  2:{ intros g Hg. unfold group_fetch. rewrite decide_False by by apply Hhave.
      destruct (enough 10 (fetch_pitch_type w player_id season g.1)) as [v|] eqn:Hv;
        [|reflexivity].
      cbn [fmap option_fmap option_map mbind option_bind]. unfold group_line.
      cbn [fst snd]. destruct (Hgroups g Hg) as [-> ->].
      apply enough_Some in Hv as [_ Hab]. by rewrite decide_True. }
  apply (foldl_dict_set_fresh _ []). rewrite app_nil_l.
  eapply sublist_NoDup; [apply pitch_line_keys_NoDup|].
  unfold dict_keys. rewrite fmap_app. apply sublist_app.
  - apply (omap_keys_sublist (λ e : string * string, e.1)).
  - apply (omap_keys_sublist (λ g : string * list string, g.1)).
Qed.

Lemma pitch_line_keys_disjoint k :
  k ∈ pitch_type_names.*1 → k ∈ pitch_groups_all.*1 → False.
Proof.
  pose proof pitch_line_keys_NoDup as Hnd.
  apply NoDup_app in Hnd as (_ & Hdis & _). exact (Hdis k).
Qed.

Lemma pipeline_line_code w player_id season code :
  code ∈ pitch_type_names.*1 →
  dict_get code (pitch_type_summary (get_pitch_type_data w player_id season))
  = pitch_line code <$> enough 10 (fetch_pitch_type w player_id season code).
Proof.
  intros Hin. rewrite pipeline_pitch_lines, dict_get_app.
  pose proof pitch_line_keys_NoDup as Hnd.
  apply NoDup_app in Hnd as (Hnd & _ & _).
  pose proof Hin as Hin'.
  apply list_elem_of_fmap in Hin' as (e & -> & He).
  rewrite (dict_get_omap (λ e : string * string, e.1)
             (λ e, pitch_line e.1 <$> enough 10 (fetch_pitch_type w player_id season e.1))
             pitch_type_names e Hnd He).
  destruct (pitch_line e.1 <$> enough 10 (fetch_pitch_type w player_id season e.1));
    [reflexivity|].
  apply (dict_get_omap_None (λ g : string * list string, g.1)).
  intros Hg. exact (pitch_line_keys_disjoint _ Hin Hg).
Qed.

Lemma pipeline_line_group w player_id season group :
  group ∈ pitch_groups_all.*1 →
  dict_get group (pitch_type_summary (get_pitch_type_data w player_id season))
  = pitch_line group <$> enough 10 (fetch_pitch_type w player_id season group).
Proof.
  intros Hin. rewrite pipeline_pitch_lines, dict_get_app.
  pose proof pitch_line_keys_NoDup as Hnd.
  apply NoDup_app in Hnd as (_ & _ & Hnd).
  pose proof Hin as Hin'.
  apply list_elem_of_fmap in Hin' as (g & -> & Hg).
  rewrite (dict_get_omap_None (λ e : string * string, e.1)).
  2:{ intros Hc. exact (pitch_line_keys_disjoint _ Hc Hin). }
  apply (dict_get_omap (λ g : string * list string, g.1)
           (λ g, pitch_line g.1 <$> enough 10 (fetch_pitch_type w player_id season g.1))
           pitch_groups_all g Hnd Hg).
Qed.

Lemma pipeline_line_keys w player_id season :
  dict_keys (pitch_type_summary (get_pitch_type_data w player_id season))
    `sublist_of` pitch_type_names.*1 ++ pitch_groups_all.*1.
Proof.
  rewrite pipeline_pitch_lines. unfold dict_keys.
  rewrite fmap_app. apply sublist_app.
  - apply (omap_keys_sublist (λ e : string * string, e.1)).
  - apply (omap_keys_sublist (λ g : string * list string, g.1)).
Qed.

(** X16: in a run, the summary's pitch type lines are these: under each
    pitch code, the line of the record fetched for the code when it has at
    least 10 at-bats (the stage's own threshold of 5 does not suffice), and
    under the bare name of each group, the line of the record fetched for
    the group when it has at least 10 at-bats. No other key occurs, and
    the codes come before the groups. *)
Theorem pitch_lines_lookup (w : world) (player_id season : Z) :
  (∀ code, code ∈ pitch_type_names.*1 →
     dict_get code (pitch_type_summary (get_pitch_type_data w player_id season))
     = pitch_line code <$>
       enough 10 (get_combined_split_data w player_id season
                    (mk_params (Some code) None None))) ∧
  (∀ group, group ∈ pitch_groups_all.*1 →
     dict_get group (pitch_type_summary (get_pitch_type_data w player_id season))
     = pitch_line group <$>
       enough 10 (get_combined_split_data w player_id season
                    (mk_params (Some group) None None))) ∧
  dict_keys (pitch_type_summary (get_pitch_type_data w player_id season))
    `sublist_of` pitch_type_names.*1 ++ pitch_groups_all.*1.
Proof.
  split; [intros code; apply pipeline_line_code|].
  split; [intros group; apply pipeline_line_group|].
  apply pipeline_line_keys.
Qed.

(** ** The best and the worst pitch of the report *)

Section extremes.
Context {A : Type} (key : A → Qc).


End extremes.




Lemma valid_pitches_failed (lines : dict PitchLine) :
  foldl (λ (acc : option (dict Qc)) (item : string * PitchLine),
           valid ← acc;
           if decide (rated_pitch item)
           then (x ← rate_float (pl_avg item.2); Some (dict_set valid item.1 x))
           else Some valid)
        None lines = None.
Proof. induction lines as [|item lines IH]; [reflexivity | exact IH]. Qed.

Lemma valid_pitches_from (lines : dict PitchLine) (acc : dict Qc) :
  foldl (λ (acc : option (dict Qc)) (item : string * PitchLine),
           valid ← acc;
           if decide (rated_pitch item)
           then (x ← rate_float (pl_avg item.2); Some (dict_set valid item.1 x))
           else Some valid)
        (Some acc) lines
  = if decide (Exists (λ item, rated_pitch item ∧ pl_avg item.2 = NA) lines)
    then None
    else Some (set_all acc (omap rated_entry lines)).
Proof.
  revert acc. induction lines as [|item lines IH]; intros acc.
  - rewrite decide_False; [reflexivity|]. intros H. by apply Exists_nil in H.
  - cbn [foldl mbind option_bind omap list_omap]. unfold rated_entry at 1.
    destruct (decide (rated_pitch item)) as [Hr|Hr].
    + destruct (pl_avg item.2) as [|q] eqn:Havg.
      * cbn [rate_float mbind option_bind]. rewrite valid_pitches_failed.
        rewrite decide_True; [reflexivity|]. apply Exists_cons_hd. by split.
      * cbn [rate_float mbind option_bind fmap option_fmap option_map].
        rewrite IH.
        destruct (decide (Exists _ lines)) as [He|He].
        -- rewrite decide_True; [reflexivity | by apply Exists_cons_tl].
        -- rewrite decide_False; [reflexivity|].
           intros H. apply Exists_cons in H as [[_ Hna]|H]; [|done].
           rewrite Havg in Hna. discriminate.
    + rewrite IH.
      destruct (decide (Exists _ lines)) as [He|He].
      * rewrite decide_True; [reflexivity | by apply Exists_cons_tl].
      * rewrite decide_False; [reflexivity|].
        intros H. apply Exists_cons in H as [[Hr' _]|H]; done.
Qed.

Lemma valid_pitches_closed (lines : dict PitchLine) :
  valid_pitches lines
  = if decide (Exists (λ item, rated_pitch item ∧ pl_avg item.2 = NA) lines)
    then None
    else Some (set_all [] (omap rated_entry lines)).
Proof. apply valid_pitches_from. Qed.

Lemma dict_set_not_nil {V} (d : dict V) k v : dict_set d k v ≠ [].
Proof. destruct d as [|[k' v'] d]; simpl; [done|]. by case_decide. Qed.

Lemma set_all_nil {V} (d : dict V) l : set_all d l = [] → d = [] ∧ l = [].
Proof.
  revert d. induction l as [|e l IH]; intros d; [done|].
  unfold set_all. cbn [foldl]. intros H. apply IH in H as [H _].
  by apply dict_set_not_nil in H.
Qed.


(** X17: the pitch analysis of the report has three outcomes. It raises
    exactly when some line that passes the test (not one of Fastball,
    Breaking, Offspeed; at least 20 at-bats) has no average; it names no
    pitch exactly when no line passes the test; otherwise it names a best
    and a worst pitch. *)
Theorem pitch_analysis_outcomes (lines : dict PitchLine) :
  (best_and_worst lines = None ↔
   ∃ item, item ∈ lines ∧ rated_pitch item ∧ pl_avg item.2 = NA) ∧
  (best_and_worst lines = Some None ↔
   ∀ item, item ∈ lines → ¬ rated_pitch item).
Proof.
  unfold best_and_worst. rewrite valid_pitches_closed.
  destruct (decide (Exists (λ item, rated_pitch item ∧ pl_avg item.2 = NA) lines))
    as [He|He]; cbn [mbind option_bind].
  - apply Exists_exists in He as (item & Hin & Hr & Hna). split.
    + split; [intros _; by exists item | reflexivity].
    + split; [discriminate|]. intros Hall. by destruct (Hall item Hin).
  - split.
    + split; [discriminate|]. intros (item & Hin & Hr & Hna).
      destruct He. apply Exists_exists. by exists item.
    + split.
      * intros Hnone item Hin Hr.
        destruct (set_all [] (omap rated_entry lines)) eqn:Hset; [|discriminate].
        apply set_all_nil in Hset as [_ Hnil].
        destruct (pl_avg item.2) as [|q] eqn:Havg.
        -- apply He, Exists_exists. by exists item.
        -- assert ((item.1, q) ∈ omap rated_entry lines) as Hq.
           { apply list_elem_of_omap. exists item. split; [exact Hin|].
             unfold rated_entry. rewrite decide_True by exact Hr.
             by rewrite Havg. }
           rewrite Hnil in Hq. by apply elem_of_nil in Hq.
      * intros Hall. rewrite (omap_none rated_entry lines); [reflexivity|].
        intros item Hin. unfold rated_entry.
        rewrite decide_False; [reflexivity | by apply Hall].
Qed.



(** ** The run with its report *)











(** ** Career files and the spelling of a name *)

(** X20: the career file is named after the player's name with spaces
    turned to underscores, so two names that agree after this replacement
    share one file: an update made under one name is the season's entry
    read under the other. *)
Theorem career_file_shared_by_spelling (w : world) (name other : string)
    (player_id season : Z) (all_data : AllData) (fs : disk)
    (basic : dict SplitRecord) :
  replace_spaces name = replace_spaces other →
  basic_splits all_data = Some basic →
  season_entry (update_career_files w other player_id season all_data fs)
    name season = Some basic.
Proof.
  intros Hsame Hbasic.
  assert (career_filename name = career_filename other) as Hfile
    by (unfold career_filename; by rewrite Hsame).
  unfold season_entry. rewrite Hfile.
  exact (update_replaces_entry w other player_id season all_data fs basic Hbasic).
Qed.

Lemma career_file_shared_by_spelling_witness :
  season_entry
    (update_career_files Samples.first_run "Will_Smith" 669257 2024
       (mk_all_data (Some []) None None) Samples.empty_disk)
    "Will Smith" 2024 = Some [].
Proof.
  apply career_file_shared_by_spelling; reflexivity.
Defined.
